(** * Relic SGA-V10 binary serializers: a shallow embedding.

    The development follows [relic/sga/v10/serialization.py].  The Python
    runtime pieces the module relies on (exceptions, dynamically typed
    values, the [utf-16-le] codec, [bytes.hex]/[bytes.fromhex], the
    [struct] layouts behind [serialization_tools.structx.Struct], integer
    enumerations) are modelled first; the serializers come next, in the
    order of the source file; the theorems close the file. *)

From Stdlib Require Import ZArith Lia List String Ascii Bool.
From stdpp Require Import base gmap strings.
From coqutil Require Import Byte Word.LittleEndianList.
Import ListNotations.
Local Open Scope Z_scope.

(** ** Python values, exceptions and results *)

Module Py.

(** A Python [str] is a sequence of Unicode code points. *)
Definition str := list Z.

(** A Python [bytes] object. *)
Definition bytes := list byte.

#[global] Instance byte_eq_dec : EqDecision byte.
Proof.
  intros a b. destruct (decide (Byte.to_N a = Byte.to_N b)) as [E|N].
  - left. now apply byte.to_N_inj.
  - right. intros ->. now apply N.
Defined.

(** The dynamically typed values that flow through the serializers. *)
Inductive object :=
| PyNone
| PyInt (z : Z)
| PyStr (s : str)
| PyBytes (b : bytes).

#[global] Instance object_eq_dec : EqDecision object.
Proof. solve_decision. Defined.

(** The exceptions the code can raise.  [MismatchError] is
    [relic.core.errors.MismatchError(name, received, expected)]. *)
Inductive exn :=
| StructError
| ValueError
| TypeError
| AttributeError
| KeyError (key : string)
| UnicodeEncodeError
| UnicodeDecodeError
| MismatchError (name : string) (received expected : object * object).

Inductive result (A : Type) :=
| Ok (a : A)
| Raise (e : exn).
Arguments Ok {A} a.
Arguments Raise {A} e.

Definition bind {A B} (r : result A) (k : A -> result B) : result B :=
  match r with
  | Ok a => k a
  | Raise e => Raise e
  end.

(** The value of a computation that is known not to raise. *)
Definition the {A} (r : result A) : match r with Ok _ => A | Raise _ => unit end :=
  match r with
  | Ok a => a
  | Raise _ => tt
  end.

End Py.
Export Py.

#[global] Instance result_ret : MRet result := @Ok.
#[global] Instance result_bind : MBind result := fun A B k r => bind r k.

(** ** Text and bytes: [str.encode], [bytes.decode], [str.rstrip],
    [bytes.hex], [bytes.fromhex] *)

Module Codec.

(** One code point in UTF-16-LE: a single 16-bit unit below the
    supplementary planes, a surrogate pair above.  Surrogate code points
    themselves cannot be encoded; integers outside the code point range do
    not occur in a [str] and are rejected as well. *)
Definition encode_char (c : Z) : result bytes :=
  if (c <? 0) || (0x10FFFF <? c) then Raise UnicodeEncodeError
  else if (0xD800 <=? c) && (c <=? 0xDFFF) then Raise UnicodeEncodeError
  else if c <? 0x10000 then Ok (le_split 2 c)
  else
    let c' := c - 0x10000 in
    Ok (le_split 2 (0xD800 + Z.shiftr c' 10) ++ le_split 2 (0xDC00 + Z.land c' 0x3FF)).

(** [s.encode("utf-16-le")] *)
Fixpoint encode (s : str) : result bytes :=
  match s with
  | [] => Ok []
  | c :: s' => b ← encode_char c; bs ← encode s'; Ok (b ++ bs)
  end.

(** [b.decode("utf-16-le")], strict error handling: an odd trailing byte,
    a high surrogate that no low surrogate follows, and a stray low
    surrogate are all decode errors. *)
Fixpoint decode (b : bytes) : result str :=
  match b with
  | [] => Ok []
  | [_] => Raise UnicodeDecodeError
  | b0 :: b1 :: rest =>
      let u := le_combine [b0; b1] in
      if (u <? 0xD800) || (0xDFFF <? u) then
        s ← decode rest; Ok (u :: s)
      else if u <=? 0xDBFF then
        match rest with
        | b2 :: b3 :: rest' =>
            let v := le_combine [b2; b3] in
            if (0xDC00 <=? v) && (v <=? 0xDFFF) then
              s ← decode rest';
              Ok (0x10000 + Z.shiftl (Z.land u 0x3FF) 10 + Z.land v 0x3FF :: s)
            else Raise UnicodeDecodeError
        | _ => Raise UnicodeDecodeError
        end
      else Raise UnicodeDecodeError
  end.

(** [s.rstrip(chars)]: drops the longest suffix made of members of
    [chars]. *)
Fixpoint rstrip (chars : list Z) (s : str) : str :=
  match s with
  | [] => []
  | c :: s' =>
      match rstrip chars s' with
      | [] => if bool_decide (c ∈ chars) then [] else [c]
      | t => c :: t
      end
  end.

(** The code point of the lower-case hexadecimal digit of a nibble. *)
Definition hexdigit (n : Z) : Z := if n <? 10 then 48 + n else 87 + n.

(** [b.hex()] *)
Definition hex (b : bytes) : str :=
  flat_map (fun x => [hexdigit (Z.shiftr (byte.unsigned x) 4);
                      hexdigit (Z.land (byte.unsigned x) 0x0F)]) b.

Definition digit_value (c : Z) : option Z :=
  if (48 <=? c) && (c <=? 57) then Some (c - 48)
  else if (97 <=? c) && (c <=? 102) then Some (c - 87)
  else if (65 <=? c) && (c <=? 70) then Some (c - 55)
  else None.

Definition isspace (c : Z) : bool := (c =? 32) || ((9 <=? c) && (c <=? 13)).

(** [bytes.fromhex(s)]: ASCII whitespace is skipped between bytes; every
    byte is two hexadecimal digits; anything else is a [ValueError]. *)
Fixpoint fromhex (s : str) : result bytes :=
  match s with
  | [] => Ok []
  | c :: s' =>
      if isspace c then fromhex s'
      else
        match digit_value c, s' with
        | Some top, d :: s'' =>
            match digit_value d with
            | Some bot => b ← fromhex s''; Ok (byte.of_Z (Z.shiftl top 4 + bot) :: b)
            | None => Raise ValueError
            end
        | _, _ => Raise ValueError
        end
  end.

End Codec.

(** ** Integer enumerations

    [E(v)] looks a member up by value and raises [ValueError] when there is
    none; [member.value] and [int(member)] give the value back. *)

Class IntEnum (E : Type) := {
  enum_value : E -> Z;
  enum_call : Z -> option E;
  enum_call_value : forall e, enum_call (enum_value e) = Some e;
  enum_value_call : forall v e, enum_call v = Some e -> enum_value e = v
}.

Definition enum_of {E} `{IntEnum E} (o : object) : result E :=
  match o with
  | PyInt v =>
      match enum_call v with
      | Some e => Ok e
      | None => Raise ValueError
      end
  | _ => Raise ValueError
  end.

(** ** [struct] layouts, as wrapped by [serialization_tools.structx.Struct]

    Only what the module's formats use is modelled: little-endian standard
    sizes (a leading [<]), the unsigned integer codes [B], [I], [Q] and the
    fixed-width byte string [s]. *)

Module Structx.

Inductive code :=
| code_B
| code_I
| code_Q
| code_s (n : nat).

Definition code_size (c : code) : nat :=
  match c with
  | code_B => 1
  | code_I => 4
  | code_Q => 8
  | code_s n => n
  end.

Definition digit_of (a : ascii) : option nat :=
  let n := nat_of_ascii a in
  if (48 <=? n)%nat && (n <=? 57)%nat then Some (n - 48)%nat else None.

Definition is_space (a : ascii) : bool :=
  let n := nat_of_ascii a in
  (n =? 32)%nat || ((9 <=? n)%nat && (n <=? 13)%nat).

(** The items of a format, after the byte-order character.  [count] is
    the repeat count read so far, if any. *)
Fixpoint parse_items (fmt : list ascii) (count : option nat) : option (list code) :=
  match fmt with
  | [] =>
      match count with
      | None => Some []
      | Some _ => None
      end
  | a :: fmt' =>
      match digit_of a with
      | Some d => parse_items fmt' (Some (10 * default 0%nat count + d)%nat)
      | None =>
          if is_space a then
            match count with
            | None => parse_items fmt' None
            | Some _ => None
            end
          else
            let n := default 1%nat count in
            rest ← parse_items fmt' None;
            match a with
            | "B"%char => Some (repeat code_B n ++ rest)
            | "I"%char => Some (repeat code_I n ++ rest)
            | "Q"%char => Some (repeat code_Q n ++ rest)
            | "s"%char => Some (code_s n :: rest)
            | _ => None
            end
      end
  end.

(** [Struct(fmt)] *)
Definition Struct (fmt : string) : result (list code) :=
  match list_ascii_of_string fmt with
  | "<"%char :: items =>
      match parse_items items None with
      | Some l => Ok l
      | None => Raise StructError
      end
  | _ => Raise StructError
  end.

Definition size (layout : list code) : nat :=
  foldr (fun c n => (code_size c + n)%nat) 0%nat layout.

Definition pack_item (c : code) (o : object) : result bytes :=
  match c, o with
  | code_s n, PyBytes b => Ok (firstn n b ++ repeat Byte.x00 (n - length b))
  | code_s _, _ => Raise StructError
  | _, PyInt z =>
      if (0 <=? z) && (z <? 2 ^ (8 * Z.of_nat (code_size c)))
      then Ok (le_split (code_size c) z)
      else Raise StructError
  | _, _ => Raise StructError
  end.

(** [layout.pack( *args )] *)
Fixpoint pack (layout : list code) (args : list object) : result bytes :=
  match layout, args with
  | [], [] => Ok []
  | c :: layout', o :: args' =>
      b ← pack_item c o; bs ← pack layout' args'; Ok (b ++ bs)
  | _, _ => Raise StructError
  end.

Definition unpack_item (c : code) (b : bytes) : object :=
  match c with
  | code_s _ => PyBytes b
  | _ => PyInt (le_combine b)
  end.

Fixpoint unpack_items (layout : list code) (buffer : bytes) : list object :=
  match layout with
  | [] => []
  | c :: layout' =>
      unpack_item c (firstn (code_size c) buffer)
        :: unpack_items layout' (skipn (code_size c) buffer)
  end.

(** [layout.unpack(buffer)] *)
Definition unpack (layout : list code) (buffer : bytes) : result (list object) :=
  if (length buffer =? size layout)%nat
  then Ok (unpack_items layout buffer)
  else Raise StructError.

(** A binary stream is represented by the bytes from its cursor to its
    end when it is read, and by the bytes written so far when it is
    written (the cursor is at the end). *)
Definition BinaryIO := bytes.

(** [layout.unpack_stream(stream)]: reads [size] bytes and unpacks them;
    the second component is the stream after the read. *)
Definition unpack_stream (layout : list code) (stream : BinaryIO)
  : result (list object * BinaryIO) :=
  vals ← unpack layout (firstn (size layout) stream);
  Ok (vals, skipn (size layout) stream).

(** [layout.pack_stream(stream, *args)]: packs, writes, and returns the
    number of bytes written together with the stream after the write. *)
Definition pack_stream (layout : list code) (stream : BinaryIO) (args : list object)
  : result (Z * BinaryIO) :=
  buffer ← pack layout args;
  Ok (Z.of_nat (length buffer), stream ++ buffer).

End Structx.
Export Structx.

(** ** Literals *)

(** The code points of an ASCII string literal. *)
Definition str_lit (s : string) : str :=
  map (fun a => Z.of_nat (nat_of_ascii a)) (list_ascii_of_string s).

(** The bytes of an ASCII bytes literal [b"..."]. *)
Definition bytes_lit (s : string) : bytes := list_byte_of_string s.

(** [o & mask] and [o >> n] on a Python value: defined on integers. *)
Definition py_and (o : object) (mask : Z) : result object :=
  match o with
  | PyInt z => Ok (PyInt (Z.land z mask))
  | _ => Raise TypeError
  end.

Definition py_rshift (o : object) (n : Z) : result object :=
  match o with
  | PyInt z => Ok (PyInt (Z.shiftr z n))
  | _ => Raise TypeError
  end.

(** [o.encode(encoding)], [o.decode(encoding)] and [o.hex()]: methods of
    [str], [bytes] and [bytes]; other values have no such attribute. *)
Definition py_encode (o : object) : result bytes :=
  match o with
  | PyStr s => Codec.encode s
  | _ => Raise AttributeError
  end.

Definition py_decode (o : object) : result str :=
  match o with
  | PyBytes b => Codec.decode b
  | _ => Raise AttributeError
  end.

Definition py_hex (o : object) : result str :=
  match o with
  | PyBytes b => Ok (Codec.hex b)
  | _ => Raise AttributeError
  end.

(** [bytes.fromhex(o)] takes a [str]. *)
Definition py_fromhex (o : object) : result bytes :=
  match o with
  | PyStr s => Codec.fromhex s
  | _ => Raise TypeError
  end.

(** [d[key]] on a metadata dictionary. *)
Definition getitem (d : gmap string object) (key : string) : result object :=
  match d !! key with
  | Some v => Ok v
  | None => Raise (KeyError key)
  end.

(** ** [relic.sga.core.serialization.ArchivePtrs]: four integers *)

Module ArchivePtrs.

Record t := {
  header_pos : object;
  header_size : object;
  data_pos : object;
  data_size : object
}.

(** Modelled from the spec: [ArchivePtrs.default()] is defined in
    [relic.sga.core.serialization], which is not part of the sources; the
    spec calls its result the zeroed/default pointers. *)
Definition default : t :=
  {| header_pos := PyInt 0; header_size := PyInt 0;
     data_pos := PyInt 0; data_size := PyInt 0 |}.

End ArchivePtrs.

(** ** [relic/sga/v10/serialization.py] *)

Record TocFooter := {
  unk_a : object;
  unk_b : object;
  block_size : object
}.

Inductive EncryptionType :=
| NONE
| AES128.

Definition EncryptionType_value (e : EncryptionType) : Z :=
  match e with
  | NONE => 0
  | AES128 => 1
  end.

Definition EncryptionType_call (v : Z) : option EncryptionType :=
  if v =? 0 then Some NONE
  else if v =? 1 then Some AES128
  else None.

Lemma EncryptionType_call_value (e : EncryptionType) :
  EncryptionType_call (EncryptionType_value e) = Some e.
Proof. now destruct e. Qed.

Lemma EncryptionType_value_call (v : Z) (e : EncryptionType) :
  EncryptionType_call v = Some e -> EncryptionType_value e = v.
Proof.
  unfold EncryptionType_call.
  destruct (Z.eqb_spec v 0) as [->|]; [now intros [= <-]|].
  destruct (Z.eqb_spec v 1) as [->|]; [now intros [= <-]|discriminate].
Qed.

#[global] Instance EncryptionType_enum : IntEnum EncryptionType := {|
  enum_value := EncryptionType_value;
  enum_call := EncryptionType_call;
  enum_call_value := EncryptionType_call_value;
  enum_value_call := EncryptionType_value_call
|}.

Record MetaBlock := {
  name : object;
  ptrs : option ArchivePtrs.t;
  sha_256 : object
}.

(** [MetaBlock.default()] *)
Definition MetaBlock_default : MetaBlock :=
  let default_sha256 : bytes := concat (repeat (bytes_lit "default hash.   ") 16) in
  {| name := PyStr (str_lit "Default Meta Block");
     ptrs := Some ArchivePtrs.default;
     sha_256 := PyBytes default_sha256 |}.

Module TocFooterSerializer.

Definition unpack (layout : list code) (stream : BinaryIO)
  : result (TocFooter * BinaryIO) :=
  '(vals, stream) ← unpack_stream layout stream;
  match vals with
  | [unk_a; unk_b; block_size] =>
      Ok ({| unk_a := unk_a; unk_b := unk_b; block_size := block_size |}, stream)
  | _ => Raise ValueError
  end.

Definition pack (layout : list code) (stream : BinaryIO) (value : TocFooter)
  : result (Z * BinaryIO) :=
  let args := [value.(unk_a); value.(unk_b); value.(block_size)] in
  pack_stream layout stream args.

End TocFooterSerializer.

Module ArchiveHeaderSerializer.

Definition RSV_0 : Z := 0.
Definition RSV_1 : Z := 1.

Definition unpack (layout : list code) (stream : BinaryIO)
  : result (MetaBlock * BinaryIO) :=
  '(vals, stream) ← unpack_stream layout stream;
  match vals with
  | [encoded_name; header_pos; header_size; data_pos; data_size; rsv_0; rsv_1; sha_256] =>
      decoded ← py_decode encoded_name;
      let name := Codec.rstrip (str_lit (String zero EmptyString)) decoded in
      let ptrs := ArchivePtrs.Build_t header_pos header_size data_pos data_size in
      if bool_decide ((rsv_0, rsv_1) ≠ (PyInt RSV_0, PyInt RSV_1)) then
        Raise (MismatchError "Reserved Flags" (rsv_0, rsv_1) (PyInt RSV_0, PyInt RSV_1))
      else
        Ok ({| name := PyStr name; ptrs := Some ptrs; sha_256 := sha_256 |}, stream)
  | _ => Raise ValueError
  end.

Definition pack (layout : list code) (stream : BinaryIO) (value : MetaBlock)
  : result (Z * BinaryIO) :=
  encoded_name ← py_encode value.(name);
  p ← match value.(ptrs) with
      | Some p => Ok p
      | None => Raise AttributeError
      end;
  let args := [PyBytes encoded_name;
               p.(ArchivePtrs.header_pos); p.(ArchivePtrs.header_size);
               p.(ArchivePtrs.data_pos); p.(ArchivePtrs.data_size);
               PyInt RSV_0; PyInt RSV_1;
               value.(sha_256)] in
  pack_stream layout stream args.

End ArchiveHeaderSerializer.

(** [assemble_meta(_, header, footer)] *)
Definition assemble_meta (_ : BinaryIO) (header : MetaBlock) (footer : TocFooter)
  : result (gmap string object) :=
  h ← py_hex header.(sha_256);
  Ok (<["sha_256" := PyStr h]>
      (<["unk_a" := footer.(unk_a)]>
      (<["unk_b" := footer.(unk_b)]>
      (<["block_size" := footer.(block_size)]> ∅)))).

(** [disassemble_meta(_, metadata)] *)
Definition disassemble_meta (_ : BinaryIO) (metadata : gmap string object)
  : result (MetaBlock * TocFooter) :=
  h ← getitem metadata "sha_256";
  sha ← py_fromhex h;
  let meta := {| name := PyNone; ptrs := None; sha_256 := PyBytes sha |} in
  a ← getitem metadata "unk_a";
  b ← getitem metadata "unk_b";
  bs ← getitem metadata "block_size";
  let footer := {| unk_a := a; unk_b := b; block_size := bs |} in
  Ok (meta, footer).

(** The module-level layouts. *)
Definition _file_layout : list code := Eval vm_compute in the (Struct "<2I Q 2I 2B I").
Definition _toc_footer_layout : list code := Eval vm_compute in the (Struct "<3I").
Definition _meta_header_layout : list code :=
  Eval vm_compute in the (Struct "<128s QI QI 2I 256s").

(** [StorageType] and [VerificationType] come from
    [relic.sga.core.definitions]; the serializers only use them as
    integer enumerations, so the record and the functions below take them
    as parameters. *)
Record FileDef {StorageType VerificationType : Type} := {
  name_pos : object;
  data_pos : object;
  length_on_disk : object;
  length_in_archive : object;
  storage_type : StorageType;
  verification : VerificationType;
  encryption : EncryptionType;
  crc : object;
  hash_pos : object
}.

Arguments FileDef : clear implicits.

Module FileDefSerializer.
Section Enums.

Context {StorageType VerificationType : Type}.
Context {StorageType_enum : IntEnum StorageType}.
Context {VerificationType_enum : IntEnum VerificationType}.

Definition STORAGE_MASK : Z := 0x0F.
Definition ENCRYPTION_MASK : Z := 0xF0.
Definition ENCRYPTION_SHIFT : Z := 4.

Definition unpack (layout : list code) (stream : BinaryIO)
  : result (FileDef StorageType VerificationType * BinaryIO) :=
  '(vals, stream) ← unpack_stream layout stream;
  match vals with
  | [name_rel_pos; hash_pos; data_rel_pos; length_in_archive; length_on_disk;
     verification_type_val; storage_and_encryption_flags; crc] =>
      storage_value ← py_and storage_and_encryption_flags STORAGE_MASK;
      masked ← py_and storage_and_encryption_flags ENCRYPTION_MASK;
      encryption_value ← py_rshift masked ENCRYPTION_SHIFT;
      storage_type ← enum_of (E := StorageType) storage_value;
      encryption_type ← enum_of (E := EncryptionType) encryption_value;
      verification_type ← enum_of (E := VerificationType) verification_type_val;
      Ok ({| name_pos := name_rel_pos;
             data_pos := data_rel_pos;
             length_on_disk := length_on_disk;
             length_in_archive := length_in_archive;
             storage_type := storage_type;
             encryption := encryption_type;
             verification := verification_type;
             crc := crc;
             hash_pos := hash_pos |}, stream)
  | _ => Raise ValueError
  end.

Definition pack (layout : list code) (stream : BinaryIO)
  (value : FileDef StorageType VerificationType) : result (Z * BinaryIO) :=
  let storage_type := enum_value value.(storage_type) in
  let encryption_type := enum_value value.(encryption) in
  let verification_type := enum_value value.(verification) in
  let storage_and_encryption_flags :=
    Z.lor (Z.shiftl encryption_type ENCRYPTION_SHIFT) storage_type in
  let args := [value.(name_pos);
               value.(hash_pos);
               value.(data_pos);
               value.(length_in_archive);
               value.(length_on_disk);
               PyInt verification_type;
               PyInt storage_and_encryption_flags;
               value.(crc)] in
  pack_stream layout stream args.

End Enums.
End FileDefSerializer.

Section FileMetadata.

Context {StorageType VerificationType : Type}.
Context {StorageType_enum : IntEnum StorageType}.
Context {VerificationType_enum : IntEnum VerificationType}.

(** [meta2def(meta)] *)
Definition meta2def (meta : gmap string object) : result (FileDef StorageType VerificationType) :=
  v ← getitem meta "verification_type";
  verification ← enum_of (E := VerificationType) v;
  e ← getitem meta "encryption_type";
  encryption ← enum_of (E := EncryptionType) e;
  s ← getitem meta "storage_type";
  storage_type ← enum_of (E := StorageType) s;
  hash_pos ← getitem meta "hash_pos";
  crc ← getitem meta "crc";
  Ok {| name_pos := PyNone;
        data_pos := PyNone;
        length_on_disk := PyNone;
        length_in_archive := PyNone;
        storage_type := storage_type;
        verification := verification;
        encryption := encryption;
        hash_pos := hash_pos;
        crc := crc |}.

(** [def2meta(_def)] *)
Definition def2meta (_def : FileDef StorageType VerificationType) : gmap string object :=
  let encryption := enum_value _def.(encryption) in
  let verification := enum_value _def.(verification) in
  let storage_type := enum_value _def.(storage_type) in
  <["storage_type" := PyInt storage_type]>
  (<["verification_type" := PyInt verification]>
  (<["encryption_type" := PyInt encryption]>
  (<["hash_pos" := _def.(hash_pos)]>
  (<["crc" := _def.(crc)]> ∅)))).

(** The module-level serializer instances. *)
Definition _file_serializer_unpack :=
  FileDefSerializer.unpack (StorageType := StorageType)
    (VerificationType := VerificationType) _file_layout.
Definition _file_serializer_pack :=
  FileDefSerializer.pack (StorageType := StorageType)
    (VerificationType := VerificationType) _file_layout.

End FileMetadata.

Definition _toc_footer_serializer_unpack := TocFooterSerializer.unpack _toc_footer_layout.
Definition _toc_footer_serializer_pack := TocFooterSerializer.pack _toc_footer_layout.
Definition _meta_header_serializer_unpack := ArchiveHeaderSerializer.unpack _meta_header_layout.
Definition _meta_header_serializer_pack := ArchiveHeaderSerializer.pack _meta_header_layout.

(** ** Enumerations of [relic.sga.core.definitions] *)

Module CoreDefinitions.

(** Modelled from the spec: [StorageType] is defined in
    [relic.sga.core.definitions], which is not part of the sources.  The
    spec names it a compression scheme tag and uses the tag 2; the
    serializers are stated for every enumeration, and this one (tags 0
    to 2) only instantiates them at concrete values. *)
Inductive StorageType :=
| STORE
| STREAM_COMPRESS
| BUFFER_COMPRESS.

Definition StorageType_value (e : StorageType) : Z :=
  match e with
  | STORE => 0
  | STREAM_COMPRESS => 1
  | BUFFER_COMPRESS => 2
  end.

Definition StorageType_call (v : Z) : option StorageType :=
  if v =? 0 then Some STORE
  else if v =? 1 then Some STREAM_COMPRESS
  else if v =? 2 then Some BUFFER_COMPRESS
  else None.

(** Modelled from the spec: [VerificationType] is defined in
    [relic.sga.core.definitions], which is not part of the sources.  The
    spec names it a checksum scheme tag and uses the tag 1; this
    enumeration (tags 0 to 4) only instantiates the general statements at
    concrete values. *)
Inductive VerificationType :=
| V_NONE
| CRC
| CRC_BLOCKS
| MD5_BLOCKS
| SHA1_BLOCKS.

Definition VerificationType_value (e : VerificationType) : Z :=
  match e with
  | V_NONE => 0
  | CRC => 1
  | CRC_BLOCKS => 2
  | MD5_BLOCKS => 3
  | SHA1_BLOCKS => 4
  end.

Definition VerificationType_call (v : Z) : option VerificationType :=
  if v =? 0 then Some V_NONE
  else if v =? 1 then Some CRC
  else if v =? 2 then Some CRC_BLOCKS
  else if v =? 3 then Some MD5_BLOCKS
  else if v =? 4 then Some SHA1_BLOCKS
  else None.

Ltac enum_cases v :=
  repeat match goal with
         | |- context [v =? ?k] => destruct (Z.eqb_spec v k) as [->|]
         end.

Lemma StorageType_call_value (e : StorageType) :
  StorageType_call (StorageType_value e) = Some e.
Proof. now destruct e. Qed.

Lemma StorageType_value_call (v : Z) (e : StorageType) :
  StorageType_call v = Some e -> StorageType_value e = v.
Proof.
  unfold StorageType_call. enum_cases v; intros [= <-]; reflexivity.
Qed.

Lemma VerificationType_call_value (e : VerificationType) :
  VerificationType_call (VerificationType_value e) = Some e.
Proof. now destruct e. Qed.

Lemma VerificationType_value_call (v : Z) (e : VerificationType) :
  VerificationType_call v = Some e -> VerificationType_value e = v.
Proof.
  unfold VerificationType_call. enum_cases v; intros [= <-]; reflexivity.
Qed.

Definition StorageType_enum : IntEnum StorageType := {|
  enum_value := StorageType_value;
  enum_call := StorageType_call;
  enum_call_value := StorageType_call_value;
  enum_value_call := StorageType_value_call
|}.

Definition VerificationType_enum : IntEnum VerificationType := {|
  enum_value := VerificationType_value;
  enum_call := VerificationType_call;
  enum_call_value := VerificationType_call_value;
  enum_value_call := VerificationType_value_call
|}.

End CoreDefinitions.

(** ** Vocabulary of the statements *)

(** The integer [o] fits an unsigned field of [bits] bits. *)
Definition fits (bits : Z) (o : object) : bool :=
  match o with
  | PyInt z => (0 <=? z) && (z <? 2 ^ bits)
  | _ => false
  end.

(** A footer whose three fields fit their 32-bit slots. *)
Definition TocFooter_valid (f : TocFooter) : bool :=
  fits 32 f.(unk_a) && fits 32 f.(unk_b) && fits 32 f.(block_size).

(** A header whose fields fit the layout: the name is text whose UTF-16-LE
    encoding takes at most 128 bytes and that does not end in NUL, the
    pointers fit their slots, the hash is 256 bytes. *)
Definition MetaBlock_valid (m : MetaBlock) : bool :=
  match m.(name), m.(ptrs), m.(sha_256) with
  | PyStr s, Some p, PyBytes h =>
      match Codec.encode s with
      | Ok b => (length b <=? 128)%nat
      | Raise _ => false
      end
      && negb (List.last s 1 =? 0)
      && fits 64 p.(ArchivePtrs.header_pos) && fits 32 p.(ArchivePtrs.header_size)
      && fits 64 p.(ArchivePtrs.data_pos) && fits 32 p.(ArchivePtrs.data_size)
      && (length h =? 256)%nat
  | _, _, _ => false
  end.

(** A file entry whose fields fit the layout: the offsets, lengths and
    checksum fit their slots, the verification tag fits a byte and the
    storage tag fits the low nibble. *)
Definition FileDef_valid {StorageType VerificationType : Type}
  {StorageType_enum : IntEnum StorageType}
  {VerificationType_enum : IntEnum VerificationType}
  (d : FileDef StorageType VerificationType) : bool :=
  fits 32 d.(name_pos) && fits 32 d.(hash_pos) && fits 64 d.(data_pos)
  && fits 32 d.(length_in_archive) && fits 32 d.(length_on_disk) && fits 32 d.(crc)
  && fits 8 (PyInt (enum_value d.(verification)))
  && fits 4 (PyInt (enum_value d.(storage_type))).

(** [len] bytes of a stream from offset [off]. *)
Definition slice (off len : nat) (s : bytes) : bytes := firstn len (skipn off s).

(** The two reserved 32-bit fields of a header blob, at offsets 152 and 156
    of the 416-byte layout. *)
Definition reserved_fields (blob : bytes) : object * object :=
  (PyInt (le_combine (slice 152 4 blob)), PyInt (le_combine (slice 156 4 blob))).

(** The number of 16-bit units a code point takes in UTF-16. *)
Definition units (c : Z) : nat := if c <? 0x10000 then 1 else 2.

Definition str_units (s : str) : nat := foldr (fun c n => (units c + n)%nat) 0%nat s.

(** What [unpack] gives back for a packed argument: integers come back as
    they are, a byte string comes back cut or NUL-padded to the field
    width. *)
Definition norm_item (c : code) (o : object) : object :=
  match c, o with
  | code_s n, PyBytes b => PyBytes (firstn n b ++ repeat Byte.x00 (n - length b))
  | _, _ => o
  end.

(** ** Sample records and blobs *)

(** A file entry over the concrete enumerations. *)
Definition sample_file
  : FileDef CoreDefinitions.StorageType CoreDefinitions.VerificationType :=
  {| name_pos := PyInt 7;
     data_pos := PyInt 0x100000000;
     length_on_disk := PyInt 12;
     length_in_archive := PyInt 40;
     storage_type := CoreDefinitions.STREAM_COMPRESS;
     verification := CoreDefinitions.SHA1_BLOCKS;
     encryption := AES128;
     crc := PyInt 0xFFFFFFFF;
     hash_pos := PyInt 3 |}.

Definition sample_footer : TocFooter :=
  {| unk_a := PyInt 1; unk_b := PyInt 0xFFFFFFFF; block_size := PyInt 65536 |}.

(** A 416-byte header blob (when [name_field] is 128 bytes long): the name
    field, zero pointers, the two reserved fields and an all-NUL hash. *)
Definition header_blob (name_field : bytes) (rsv_0 rsv_1 : Z) : bytes :=
  name_field ++ le_split 8 0 ++ le_split 4 0 ++ le_split 8 0 ++ le_split 4 0
    ++ le_split 4 rsv_0 ++ le_split 4 rsv_1 ++ repeat Byte.x00 256.

(** A name field that starts with the lone high surrogate U+D800. *)
Definition lone_surrogate_name : bytes := le_split 2 0xD800 ++ repeat Byte.x00 126.

(** The buffer of the concrete scenario, field by field. *)
Definition scenario_buffer : bytes :=
  le_split 4 0x10 ++ le_split 4 0x20 ++ le_split 8 0x1000 ++ le_split 4 100
    ++ le_split 4 50 ++ le_split 1 1 ++ le_split 1 0x12 ++ le_split 4 0xDEADBEEF.


(** A name of 65 letters: 130 bytes in UTF-16-LE. *)
Definition long_name : str := repeat 65 65.

Definition long_name_block : MetaBlock :=
  {| name := PyStr long_name;
     ptrs := Some ArchivePtrs.default;
     sha_256 := PyBytes (repeat Byte.x00 256) |}.

(** ** Vocabulary of the further properties *)

(** The integer a value holds (0 for a value that is no integer). *)
Definition int_of (o : object) : Z :=
  match o with
  | PyInt z => z
  | _ => 0
  end.

(** The flags byte [FileDefSerializer.pack] computes for an entry. *)
Definition flags_of {StorageType VerificationType : Type}
  {StorageType_enum : IntEnum StorageType}
  {VerificationType_enum : IntEnum VerificationType}
  (d : FileDef StorageType VerificationType) : Z :=
  Z.lor (Z.shiftl (enum_value d.(encryption)) 4) (enum_value d.(storage_type)).

(** What [FileDefSerializer.pack] needs of an entry: integer fields that fit
    their slots, a verification tag and a flags value that fit a byte. *)
Definition FileDef_packable {StorageType VerificationType : Type}
  {StorageType_enum : IntEnum StorageType}
  {VerificationType_enum : IntEnum VerificationType}
  (d : FileDef StorageType VerificationType) : bool :=
  fits 32 d.(name_pos) && fits 32 d.(hash_pos) && fits 64 d.(data_pos)
  && fits 32 d.(length_in_archive) && fits 32 d.(length_on_disk)
  && fits 8 (PyInt (enum_value d.(verification)))
  && fits 8 (PyInt (flags_of d))
  && fits 32 d.(crc).

(** A byte string cut or NUL-padded to [n] bytes, as the [s] code packs it. *)
Definition pad (n : nat) (b : bytes) : bytes :=
  firstn n b ++ repeat Byte.x00 (n - length b).

(** The 416 bytes of a header with encoded name [b], pointers [p] and hash
    [h]. *)
Definition header_bytes (b : bytes) (p : ArchivePtrs.t) (h : bytes) : bytes :=
  pad 128 b
    ++ le_split 8 (int_of p.(ArchivePtrs.header_pos))
    ++ le_split 4 (int_of p.(ArchivePtrs.header_size))
    ++ le_split 8 (int_of p.(ArchivePtrs.data_pos))
    ++ le_split 4 (int_of p.(ArchivePtrs.data_size))
    ++ le_split 4 0 ++ le_split 4 1
    ++ pad 256 h.

(** The pointers fit their slots. *)
Definition ArchivePtrs_fit (p : ArchivePtrs.t) : bool :=
  fits 64 p.(ArchivePtrs.header_pos) && fits 32 p.(ArchivePtrs.header_size)
  && fits 64 p.(ArchivePtrs.data_pos) && fits 32 p.(ArchivePtrs.data_size).

(** The keys of the per-file metadata and of the archive metadata. *)
Definition file_meta_keys : list string :=
  ["verification_type"; "encryption_type"; "storage_type"; "hash_pos"; "crc"].

Definition archive_meta_keys : list string :=
  ["sha_256"; "unk_a"; "unk_b"; "block_size"].

(** * Properties *)

(** ** The UTF-16-LE codec *)

Section CodecFacts.
Import Codec.

Lemma le_split_2 (u : Z) : le_split 2 u = [byte.of_Z u; byte.of_Z (Z.shiftr u 8)].
Proof. reflexivity. Qed.

Lemma le_combine_2 (u : Z) :
  0 <= u < 0x10000 -> le_combine [byte.of_Z u; byte.of_Z (Z.shiftr u 8)] = u.
Proof.
  intros Hu. rewrite <- le_split_2, le_combine_split.
  apply Z.mod_small. simpl. lia.
Qed.

Lemma le_combine_2_bound (b0 b1 : byte) : 0 <= le_combine [b0; b1] < 0x10000.
Proof. apply (le_combine_bound [b0; b1]). Qed.

Lemma encode_char_length (c : Z) (b : bytes) :
  encode_char c = Ok b -> length b = (2 * units c)%nat.
Proof.
  unfold encode_char, units.
  destruct ((c <? 0) || (1114111 <? c)); [discriminate|].
  destruct ((55296 <=? c) && (c <=? 57343)); [discriminate|].
  destruct (c <? 65536); intros [= <-]; reflexivity.
Qed.

Lemma encode_length (s : str) (b : bytes) :
  encode s = Ok b -> length b = (2 * str_units s)%nat.
Proof.
  revert b. induction s as [|c s IH]; intros b; simpl.
  - now intros [= <-].
  - destruct (encode_char c) as [bc|] eqn:Hc; [|discriminate]. simpl.
    destruct (encode s) as [bs|]; [|discriminate]. simpl.
    intros [= <-]. rewrite length_app, (encode_char_length _ _ Hc), (IH bs eq_refl). lia.
Qed.

(** Decoding what [encode_char] wrote gives the code point back, whatever
    follows it. *)
Lemma decode_encode_char (c : Z) (b rest : bytes) :
  encode_char c = Ok b ->
  decode (b ++ rest) = s ← decode rest; Ok (c :: s).
Proof.
  unfold encode_char.
  destruct (Z.ltb_spec c 0); [discriminate|].
  destruct (Z.ltb_spec 1114111 c); [discriminate|]. simpl.
  destruct (Z.leb_spec 55296 c); simpl.
  - destruct (Z.leb_spec c 57343); [discriminate|].
    destruct (Z.ltb_spec c 65536); intros [= <-].
    + rewrite le_split_2. simpl app. cbn [decode].
      rewrite le_combine_2 by lia.
      destruct (Z.ltb_spec c 55296); [lia|].
      destruct (Z.ltb_spec 57343 c); [|lia]. reflexivity.
    + set (hi := 55296 + Z.shiftr (c - 65536) 10).
      set (lo := 56320 + Z.land (c - 65536) 1023).
      assert (Hq : Z.shiftr (c - 65536) 10 = (c - 65536) / 1024)
        by (rewrite Z.shiftr_div_pow2 by lia; reflexivity).
      assert (Hr : Z.land (c - 65536) 1023 = (c - 65536) mod 1024)
        by (change 1023 with (Z.ones 10); rewrite Z.land_ones by lia; reflexivity).
      assert (Hhi : 55296 <= hi <= 56319)
        by (subst hi; rewrite Hq; Z.div_mod_to_equations; lia).
      assert (Hlo : 56320 <= lo <= 57343)
        by (subst lo; rewrite Hr; Z.div_mod_to_equations; lia).
      change (le_split 2 hi ++ le_split 2 lo)
        with [byte.of_Z hi; byte.of_Z (Z.shiftr hi 8);
              byte.of_Z lo; byte.of_Z (Z.shiftr lo 8)].
      simpl app. cbn [decode].
      rewrite !le_combine_2 by lia.
      destruct (Z.ltb_spec hi 55296); [lia|].
      destruct (Z.ltb_spec 57343 hi); [lia|]. simpl orb. cbv iota.
      destruct (Z.leb_spec hi 56319); [|lia].
      destruct (Z.leb_spec 56320 lo); [|lia].
      destruct (Z.leb_spec lo 57343); [|lia]. simpl andb. cbv iota.
      replace (65536 + Z.shiftl (Z.land hi 1023) 10 + Z.land lo 1023) with c; [reflexivity|].
      change 1023 with (Z.ones 10). rewrite !Z.land_ones, Z.shiftl_mul_pow2 by lia.
      subst hi lo. rewrite Hq, Hr. change (2 ^ 10) with 1024.
      rewrite (Z.add_comm 55296), (Z.add_comm 56320).
      change 55296 with (54 * 1024). change 56320 with (55 * 1024).
      rewrite !Z.mod_add by lia.
      rewrite Z.mod_mod by lia.
      rewrite (Z.mod_small ((c - 65536) / 1024)) by (Z.div_mod_to_equations; lia).
      Z.div_mod_to_equations; lia.
  - destruct (Z.ltb_spec c 65536); [|lia]. intros [= <-].
    rewrite le_split_2. simpl app. cbn [decode].
    rewrite le_combine_2 by lia.
    destruct (Z.ltb_spec c 55296); [|lia]. reflexivity.
Qed.

Lemma decode_encode_app (s : str) (b rest : bytes) :
  encode s = Ok b ->
  decode (b ++ rest) = t ← decode rest; Ok (s ++ t).
Proof.
  revert b. induction s as [|c s IH]; intros b; simpl.
  - intros [= <-]. simpl. now destruct (decode rest).
  - destruct (encode_char c) as [bc|] eqn:Hc; [|discriminate]. simpl.
    destruct (encode s) as [bs|]; [|discriminate]. simpl.
    intros [= <-]. rewrite <- app_assoc, (decode_encode_char _ _ _ Hc), (IH bs eq_refl).
    now destruct (decode rest).
Qed.

(** [decode] inverts [encode]. *)
Lemma decode_encode (s : str) (b : bytes) :
  encode s = Ok b -> decode b = Ok s.
Proof.
  intros H. rewrite <- (app_nil_r b), (decode_encode_app _ _ _ H). simpl.
  now rewrite app_nil_r.
Qed.

Lemma decode_zeros (k : nat) (rest : bytes) :
  decode (repeat Byte.x00 (2 * k) ++ rest) = t ← decode rest; Ok (repeat 0 k ++ t).
Proof.
  induction k as [|k IH].
  - simpl. now destruct (decode rest).
  - replace (2 * S k)%nat with (S (S (2 * k))) by lia.
    cbn [repeat app]. cbn [decode]. change (le_combine [Byte.x00; Byte.x00]) with 0.
    change ((0 <? 55296) || (57343 <? 0)) with true. cbv iota.
    rewrite IH. now destruct (decode rest).
Qed.

(** A successful decode yields one code point per unit or pair of units. *)
Lemma decode_units_bounded (n : nat) (x : bytes) (s : str) :
  (length x <= n)%nat -> decode x = Ok s -> length x = (2 * str_units s)%nat.
Proof.
  revert x s. induction n as [|n IH]; intros x s Hn.
  - destruct x; [|simpl in Hn; lia]. now intros [= <-].
  - destruct x as [|b0 [|b1 rest]]; [now intros [= <-] | discriminate |].
    cbn [decode]. pose proof (le_combine_2_bound b0 b1) as Hu.
    set (u := le_combine [b0; b1]) in *. simpl in Hn.
    destruct ((u <? 55296) || (57343 <? u)).
    + destruct (decode rest) as [t|] eqn:Ht; [|discriminate]. intros [= <-].
      simpl. unfold units. destruct (Z.ltb_spec u 65536); [|lia].
      rewrite (IH rest t); [lia | lia | exact Ht].
    + destruct (u <=? 56319); [|discriminate].
      destruct rest as [|b2 [|b3 rest']]; [discriminate..|].
      set (v := le_combine [b2; b3]).
      destruct ((56320 <=? v) && (v <=? 57343)); [|discriminate].
      destruct (decode rest') as [t|] eqn:Ht; [|discriminate]. intros [= <-].
      simpl in *. unfold units.
      pose proof (Z.shiftl_nonneg (Z.land u 1023) 10) as H1.
      pose proof (Z.land_nonneg u 1023) as H2.
      pose proof (Z.land_nonneg v 1023) as H3.
      destruct (Z.ltb_spec (65536 + Z.shiftl (Z.land u 1023) 10 + Z.land v 1023) 65536); [lia|].
      rewrite (IH rest' t); [lia | lia | exact Ht].
Qed.

Lemma decode_units (x : bytes) (s : str) :
  decode x = Ok s -> length x = (2 * str_units s)%nat.
Proof. apply (decode_units_bounded (length x)). lia. Qed.

(** [rstrip] with the single character NUL. *)
Lemma rstrip_zeros (k : nat) : rstrip [0] (repeat 0 k) = [].
Proof. induction k as [|k IH]; [reflexivity|]. simpl. now rewrite IH. Qed.

Lemma rstrip_app_zeros (s : str) (k : nat) :
  rstrip [0] (s ++ repeat 0 k) = rstrip [0] s.
Proof.
  induction s as [|c s IH]; simpl.
  - apply rstrip_zeros.
  - now rewrite IH.
Qed.

Lemma rstrip_id (s : str) : List.last s 1 <> 0 -> rstrip [0] s = s.
Proof.
  induction s as [|c s IH]; [reflexivity|].
  destruct s as [|c' s'].
  - simpl. intros Hc. rewrite bool_decide_eq_false_2; [reflexivity|].
    rewrite list_elem_of_singleton. exact Hc.
  - intros Hl. change (List.last (c :: c' :: s') 1) with (List.last (c' :: s') 1) in Hl.
    cbn [rstrip]. cbn [rstrip] in IH. now rewrite (IH Hl).
Qed.

Lemma rstrip_last (s : str) : List.last (rstrip [0] s) 1 <> 0.
Proof.
  induction s as [|c s IH]; [simpl; lia|].
  cbn [rstrip]. destruct (rstrip [0] s) as [|a t].
  - destruct (bool_decide_reflect (c ∈ [0])) as [Hc|Hc]; [simpl; lia|].
    simpl. intros ->. apply Hc. now apply list_elem_of_singleton.
  - exact IH.
Qed.

Lemma rstrip_units (chars : list Z) (s : str) :
  (str_units (rstrip chars s) <= str_units s)%nat.
Proof.
  induction s as [|c s IH]; [reflexivity|].
  cbn [rstrip]. destruct (rstrip chars s) as [|a t].
  - destruct (bool_decide (c ∈ chars)); simpl in *; lia.
  - simpl in *. lia.
Qed.

(** ** Hexadecimal text *)

Lemma fromhex_hex_byte (x : byte) (s : str) :
  fromhex (hexdigit (Z.shiftr (byte.unsigned x) 4)
             :: hexdigit (Z.land (byte.unsigned x) 0x0F) :: s)
  = b ← fromhex s; Ok (x :: b).
Proof.
  destruct x; reflexivity.
Qed.

(** [bytes.fromhex] inverts [bytes.hex]. *)
Lemma fromhex_hex (b : bytes) : fromhex (hex b) = Ok b.
Proof.
  induction b as [|x b IH]; [reflexivity|].
  change (hex (x :: b))
    with (hexdigit (Z.shiftr (byte.unsigned x) 4)
            :: hexdigit (Z.land (byte.unsigned x) 0x0F) :: hex b).
  now rewrite fromhex_hex_byte, IH.
Qed.

End CodecFacts.

(** ** Layouts *)

(** The module-level layouts are what [Struct] makes of the format strings. *)
Lemma layouts_parse :
  Struct "<2I Q 2I 2B I" = Ok _file_layout /\
  Struct "<3I" = Ok _toc_footer_layout /\
  Struct "<128s QI QI 2I 256s" = Ok _meta_header_layout /\
  size _file_layout = 30%nat /\ size _toc_footer_layout = 12%nat /\
  size _meta_header_layout = 416%nat.
Proof. repeat split. Qed.

Section StructFacts.

Lemma pack_item_length (c : code) (o : object) (b : bytes) :
  pack_item c o = Ok b -> length b = code_size c.
Proof.
  destruct c, o; simpl; try discriminate;
    try (destruct (_ && _); [|discriminate]; intros [= <-]; reflexivity).
  intros [= <-]. rewrite length_app, length_take, repeat_length. lia.
Qed.

Lemma unpack_pack_item (c : code) (o : object) (b : bytes) :
  pack_item c o = Ok b -> unpack_item c b = norm_item c o.
Proof.
  destruct c, o; simpl; try discriminate.
  4: now intros [= <-].
  all: match goal with
       | |- context [0 <=? ?x] => destruct (Z.leb_spec 0 x); [|discriminate]
       end.
  all: match goal with
       | |- context [?x <? ?k] => destruct (Z.ltb_spec x k); [|discriminate]
       end.
  all: intros [= <-]; rewrite le_combine_split.
  all: rewrite Z.mod_small by (simpl in *; lia); reflexivity.
Qed.

Lemma pack_item_int (c : code) (z : Z) :
  (forall n, c <> code_s n) ->
  0 <= z < 2 ^ (8 * Z.of_nat (code_size c)) ->
  pack_item c (PyInt z) = Ok (le_split (code_size c) z).
Proof.
  intros Hc Hz. destruct c; try (now destruct (Hc n)); simpl in *;
    (destruct (Z.leb_spec 0 z); [|lia]);
    match goal with
    | |- context [z <? ?k] => destruct (Z.ltb_spec z k); [reflexivity|lia]
    end.
Qed.

Lemma pack_length (layout : list code) (args : list object) (buf : bytes) :
  pack layout args = Ok buf -> length buf = size layout.
Proof.
  revert args buf. induction layout as [|c l IH]; intros [|o args] buf; simpl;
    try discriminate.
  - now intros [= <-].
  - destruct (pack_item c o) as [b|] eqn:Hb; [|discriminate]. simpl.
    destruct (pack l args) as [bs|] eqn:Hbs; [|discriminate]. simpl.
    intros [= <-]. rewrite length_app, (pack_item_length _ _ _ Hb), (IH _ _ Hbs).
    reflexivity.
Qed.

Lemma unpack_items_pack (layout : list code) (args : list object) (buf : bytes) :
  pack layout args = Ok buf ->
  unpack_items layout buf = zip_with norm_item layout args.
Proof.
  revert args buf. induction layout as [|c l IH]; intros [|o args] buf; simpl;
    try discriminate.
  - reflexivity.
  - destruct (pack_item c o) as [b|] eqn:Hb; [|discriminate]. simpl.
    destruct (pack l args) as [bs|] eqn:Hbs; [|discriminate]. simpl.
    intros [= <-].
    rewrite take_app_length', drop_app_length'
      by (symmetry; eapply pack_item_length, Hb).
    now rewrite (unpack_pack_item _ _ _ Hb), (IH _ _ Hbs).
Qed.

(** Reading back what [pack] wrote, whatever follows it in the stream. *)
Lemma unpack_stream_pack (layout : list code) (args : list object) (buf rest : bytes) :
  pack layout args = Ok buf ->
  unpack_stream layout (buf ++ rest) = Ok (zip_with norm_item layout args, rest).
Proof.
  intros H. pose proof (pack_length _ _ _ H) as Hl.
  unfold unpack_stream, unpack.
  rewrite take_app_length', drop_app_length' by (symmetry; exact Hl).
  rewrite Hl, Nat.eqb_refl. simpl. now rewrite (unpack_items_pack _ _ _ H).
Qed.

(** A stream that holds at least [size layout] bytes always unpacks. *)
Lemma unpack_stream_long (layout : list code) (stream : bytes) :
  (size layout <= length stream)%nat ->
  unpack_stream layout stream
  = Ok (unpack_items layout (firstn (size layout) stream), skipn (size layout) stream).
Proof.
  intros H. unfold unpack_stream, unpack.
  rewrite length_take_le by exact H. now rewrite Nat.eqb_refl.
Qed.

Lemma unpack_stream_short (layout : list code) (stream : bytes) :
  (length stream < size layout)%nat ->
  unpack_stream layout stream = Raise StructError.
Proof.
  intros H. unfold unpack_stream, unpack.
  rewrite length_take_ge by lia.
  destruct (Nat.eqb_spec (length stream) (size layout)); [lia|reflexivity].
Qed.

Lemma slice_take (off len n : nat) (s : bytes) :
  (off + len <= n)%nat -> firstn len (skipn off (firstn n s)) = slice off len s.
Proof.
  intros H. unfold slice.
  rewrite !take_drop_commute, take_take. f_equal. f_equal. lia.
Qed.

End StructFacts.

(** ** The packed storage and encryption byte *)

Lemma flags_low_nibble (en st : Z) :
  0 <= st < 16 -> Z.land (Z.lor (Z.shiftl en 4) st) 0x0F = st.
Proof.
  intros H. rewrite Z.land_lor_distr_l.
  change 15 with (Z.ones 4). rewrite !Z.land_ones by lia.
  rewrite Z.shiftl_mul_pow2 by lia. rewrite Z.mod_mul by lia.
  rewrite Z.mod_small by (simpl; lia). reflexivity.
Qed.

Lemma flags_high_nibble (en st : Z) :
  0 <= st < 16 -> 0 <= en < 16 ->
  Z.shiftr (Z.land (Z.lor (Z.shiftl en 4) st) 0xF0) 4 = en.
Proof.
  intros Hs He. rewrite Z.shiftr_land, Z.shiftr_lor.
  rewrite Z.shiftr_shiftl_l by lia. change (4 - 4) with 0. rewrite Z.shiftl_0_r.
  rewrite (Z.shiftr_div_pow2 st) by lia. rewrite (Z.div_small st) by (simpl; lia).
  rewrite Z.lor_0_r. change (Z.shiftr 240 4) with (Z.ones 4).
  rewrite Z.land_ones by lia. apply Z.mod_small. simpl; lia.
Qed.

Lemma flags_byte (en st : Z) :
  0 <= st < 16 -> 0 <= en < 16 -> 0 <= Z.lor (Z.shiftl en 4) st < 256.
Proof.
  intros Hs He.
  assert (Hd : Z.land (Z.shiftl en 4) st = 0).
  { apply Z.bits_inj'. intros i Hi. rewrite Z.land_spec, Z.bits_0.
    destruct (Z.ltb_spec i 4).
    - rewrite Z.shiftl_spec_low by lia. reflexivity.
    - replace (Z.testbit st i) with false; [apply andb_false_r|].
      symmetry. apply (Z.bits_above_log2 st i); [lia|].
      destruct (Z.eq_dec st 0) as [->|]; [simpl; lia|].
      apply Z.log2_lt_pow2; [lia|]. change (2 ^ 4) with 16 in *.
      assert (2 ^ 4 <= 2 ^ i) by (apply Z.pow_le_mono_r; lia). simpl in *. lia. }
  rewrite <- Z.add_nocarry_lor by exact Hd.
  rewrite Z.shiftl_mul_pow2 by lia. simpl. lia.
Qed.

(** ** Reading whole records from a stream *)

Section RecordFacts.

Lemma fits_range (bits z : Z) : fits bits (PyInt z) = true -> 0 <= z < 2 ^ bits.
Proof. simpl. lia. Qed.

Lemma fits_int (bits : Z) (o : object) :
  fits bits o = true -> exists z, o = PyInt z /\ 0 <= z < 2 ^ bits.
Proof.
  destruct o; try discriminate. intros H. exists z.
  split; [reflexivity|]. now apply fits_range.
Qed.

Lemma pack_cons (c : code) (layout : list code) (o : object) (args : list object) (b : bytes) :
  pack_item c o = Ok b ->
  pack (c :: layout) (o :: args) = bs ← pack layout args; Ok (b ++ bs).
Proof. intros H. simpl. now rewrite H. Qed.

Lemma pack_item_I (z : Z) :
  fits 32 (PyInt z) = true -> pack_item code_I (PyInt z) = Ok (le_split 4 z).
Proof. intros H. apply pack_item_int; [discriminate|]. now apply fits_range in H. Qed.

Lemma pack_item_Q (z : Z) :
  fits 64 (PyInt z) = true -> pack_item code_Q (PyInt z) = Ok (le_split 8 z).
Proof. intros H. apply pack_item_int; [discriminate|]. now apply fits_range in H. Qed.

Lemma pack_item_B (z : Z) :
  fits 8 (PyInt z) = true -> pack_item code_B (PyInt z) = Ok (le_split 1 z).
Proof. intros H. apply pack_item_int; [discriminate|]. now apply fits_range in H. Qed.

(** The fields of a header blob, by offset. *)
Lemma header_fields (stream : bytes) :
  (416 <= length stream)%nat ->
  unpack_stream _meta_header_layout stream
  = Ok ([PyBytes (slice 0 128 stream);
         PyInt (le_combine (slice 128 8 stream));
         PyInt (le_combine (slice 136 4 stream));
         PyInt (le_combine (slice 140 8 stream));
         PyInt (le_combine (slice 148 4 stream));
         PyInt (le_combine (slice 152 4 stream));
         PyInt (le_combine (slice 156 4 stream));
         PyBytes (slice 160 256 stream)], skipn 416 stream).
Proof.
  intros H. rewrite unpack_stream_long by exact H.
  change (size _meta_header_layout) with 416%nat.
  unfold _meta_header_layout. cbn [unpack_items unpack_item code_size].
  rewrite !drop_drop. cbn [Nat.add].
  change (firstn 128 (firstn 416 stream))
    with (firstn 128 (skipn 0 (firstn 416 stream))).
  rewrite !slice_take by lia. reflexivity.
Qed.

(** The fields of a file entry, by offset. *)
Lemma file_fields (stream : bytes) :
  (30 <= length stream)%nat ->
  unpack_stream _file_layout stream
  = Ok ([PyInt (le_combine (slice 0 4 stream));
         PyInt (le_combine (slice 4 4 stream));
         PyInt (le_combine (slice 8 8 stream));
         PyInt (le_combine (slice 16 4 stream));
         PyInt (le_combine (slice 20 4 stream));
         PyInt (le_combine (slice 24 1 stream));
         PyInt (le_combine (slice 25 1 stream));
         PyInt (le_combine (slice 26 4 stream))], skipn 30 stream).
Proof.
  intros H. rewrite unpack_stream_long by exact H.
  change (size _file_layout) with 30%nat.
  unfold _file_layout. cbn [unpack_items unpack_item code_size].
  rewrite !drop_drop. cbn [Nat.add].
  change (firstn 4 (firstn 30 stream))
    with (firstn 4 (skipn 0 (firstn 30 stream))).
  rewrite !slice_take by lia. reflexivity.
Qed.

(** What [ArchiveHeaderSerializer.unpack] does on a stream that holds a
    whole header. *)
Lemma header_unpack_long (stream : bytes) :
  (416 <= length stream)%nat ->
  _meta_header_serializer_unpack stream
  = decoded ← Codec.decode (slice 0 128 stream);
    if bool_decide (reserved_fields stream ≠ (PyInt 0, PyInt 1)) then
      Raise (MismatchError "Reserved Flags" (reserved_fields stream) (PyInt 0, PyInt 1))
    else
      Ok ({| name := PyStr (Codec.rstrip [0] decoded);
             ptrs := Some (ArchivePtrs.Build_t
                             (PyInt (le_combine (slice 128 8 stream)))
                             (PyInt (le_combine (slice 136 4 stream)))
                             (PyInt (le_combine (slice 140 8 stream)))
                             (PyInt (le_combine (slice 148 4 stream))));
             sha_256 := PyBytes (slice 160 256 stream) |}, skipn 416 stream).
Proof.
  intros H. unfold _meta_header_serializer_unpack, ArchiveHeaderSerializer.unpack.
  rewrite header_fields by exact H. reflexivity.
Qed.

Lemma header_unpack_short (stream : bytes) :
  (length stream < 416)%nat ->
  _meta_header_serializer_unpack stream = Raise StructError.
Proof.
  intros H. unfold _meta_header_serializer_unpack, ArchiveHeaderSerializer.unpack.
  now rewrite unpack_stream_short by exact H.
Qed.

(** What a successful [ArchiveHeaderSerializer.pack] wrote. *)
Lemma header_pack_inv (stream : bytes) (m : MetaBlock) (n : Z) (out : bytes) :
  _meta_header_serializer_pack stream m = Ok (n, out) ->
  exists s b p buf,
    m.(name) = PyStr s /\ Codec.encode s = Ok b /\ m.(ptrs) = Some p /\
    pack _meta_header_layout
      [PyBytes b; p.(ArchivePtrs.header_pos); p.(ArchivePtrs.header_size);
       p.(ArchivePtrs.data_pos); p.(ArchivePtrs.data_size);
       PyInt 0; PyInt 1; m.(sha_256)] = Ok buf /\
    n = 416 /\ out = stream ++ buf /\ length buf = 416%nat.
Proof.
  unfold _meta_header_serializer_pack, ArchiveHeaderSerializer.pack, pack_stream.
  destruct m as [nm pt sh]. cbn [name ptrs sha_256].
  destruct nm as [| |s|]; try discriminate. cbn [py_encode].
  destruct (Codec.encode s) as [b|] eqn:Hb; [|discriminate]. cbn [mbind result_bind bind].
  destruct pt as [p|]; [|discriminate]. cbn [mbind result_bind bind].
  match goal with
  | |- context [pack ?l ?a] => destruct (pack l a) as [buf|] eqn:Hp; [|discriminate]
  end.
  cbn [mbind result_bind bind]. intros [= <- <-].
  pose proof (pack_length _ _ _ Hp) as Hl. change (size _meta_header_layout) with 416%nat in Hl.
  exists s, b, p, buf. rewrite Hl. repeat split; solve [reflexivity | exact Hp | exact Hb].
Qed.

End RecordFacts.

(** ** Round trips *)

Lemma andb_true_split (a b : bool) : a && b = true -> a = true /\ b = true.
Proof. now destruct a, b. Qed.

Ltac split_andb :=
  repeat match goal with
         | H : _ && _ = true |- _ => apply andb_true_split in H; destruct H
         end.

Ltac pack_step :=
  erewrite pack_cons
    by first [ apply pack_item_I; eassumption
             | apply pack_item_Q; eassumption
             | apply pack_item_B; eassumption
             | reflexivity ].

Lemma footer_roundtrip (f : TocFooter) :
  TocFooter_valid f = true ->
  exists buf,
    _toc_footer_serializer_pack [] f = Ok (12, buf) /\
    forall rest, _toc_footer_serializer_unpack (buf ++ rest) = Ok (f, rest).
Proof.
  destruct f as [a b c]. unfold TocFooter_valid. cbn [unk_a unk_b block_size].
  intros H. split_andb.
  destruct a as [|za| |]; try discriminate.
  destruct b as [|zb| |]; try discriminate.
  destruct c as [|zc| |]; try discriminate.
  assert (Hp : exists buf, pack _toc_footer_layout [PyInt za; PyInt zb; PyInt zc] = Ok buf).
  { unfold _toc_footer_layout. repeat pack_step. cbn. eauto. }
  destruct Hp as [buf Hp]. exists buf. split.
  - unfold _toc_footer_serializer_pack, TocFooterSerializer.pack, pack_stream.
    cbn [unk_a unk_b block_size]. rewrite Hp. cbn.
    now rewrite (pack_length _ _ _ Hp).
  - intros rest. unfold _toc_footer_serializer_unpack, TocFooterSerializer.unpack.
    now rewrite (unpack_stream_pack _ _ _ rest Hp).
Qed.

(** The name field: a name that fits comes back once the padding is
    stripped. *)
Lemma name_field_roundtrip (s : str) (b : bytes) :
  Codec.encode s = Ok b -> (length b <= 128)%nat -> List.last s 1 <> 0 ->
  exists t, Codec.decode (firstn 128 b ++ repeat Byte.x00 (128 - length b)) = Ok t
            /\ Codec.rstrip [0] t = s.
Proof.
  intros Hb Hl Hs. pose proof (encode_length _ _ Hb) as Hu.
  rewrite take_ge by exact Hl.
  replace (128 - length b)%nat with (2 * (64 - str_units s))%nat by lia.
  rewrite <- (app_nil_r (repeat _ _)).
  rewrite (decode_encode_app _ _ _ Hb), decode_zeros. cbn.
  eexists. split; [reflexivity|].
  now rewrite app_nil_r, rstrip_app_zeros, rstrip_id.
Qed.

Lemma header_roundtrip (m : MetaBlock) :
  MetaBlock_valid m = true ->
  exists buf,
    _meta_header_serializer_pack [] m = Ok (416, buf) /\
    forall rest, _meta_header_serializer_unpack (buf ++ rest) = Ok (m, rest).
Proof.
  destruct m as [nm pt sh]. unfold MetaBlock_valid. cbn [name ptrs sha_256].
  destruct nm as [| |s|]; try discriminate.
  destruct pt as [[hp hs dp ds]|]; try discriminate.
  destruct sh as [| | |h]; try discriminate.
  cbn [ArchivePtrs.header_pos ArchivePtrs.header_size ArchivePtrs.data_pos ArchivePtrs.data_size].
  destruct (Codec.encode s) as [b|] eqn:Hb; [|discriminate].
  intros H. split_andb.
  destruct hp as [|zhp| |]; try discriminate.
  destruct hs as [|zhs| |]; try discriminate.
  destruct dp as [|zdp| |]; try discriminate.
  destruct ds as [|zds| |]; try discriminate.
  assert (Hlb : (length b <= 128)%nat) by now apply Nat.leb_le.
  assert (Hlh : length h = 256%nat) by now apply Nat.eqb_eq.
  assert (Hs : List.last s 1 <> 0)
    by (destruct (Z.eqb_spec (List.last s 1) 0); [discriminate|assumption]).
  assert (Hp : exists buf,
             pack _meta_header_layout
               [PyBytes b; PyInt zhp; PyInt zhs; PyInt zdp; PyInt zds;
                PyInt 0; PyInt 1; PyBytes h] = Ok buf).
  { unfold _meta_header_layout. repeat pack_step. cbn. eauto. }
  destruct Hp as [buf Hp]. exists buf. split.
  - unfold _meta_header_serializer_pack, ArchiveHeaderSerializer.pack, pack_stream.
    cbn [name ptrs sha_256 py_encode]. rewrite Hb. cbn [mbind result_bind bind].
    cbn [ArchivePtrs.header_pos ArchivePtrs.header_size
         ArchivePtrs.data_pos ArchivePtrs.data_size].
    change ArchiveHeaderSerializer.RSV_0 with 0. change ArchiveHeaderSerializer.RSV_1 with 1.
    rewrite Hp. cbn. now rewrite (pack_length _ _ _ Hp).
  - intros rest. unfold _meta_header_serializer_unpack, ArchiveHeaderSerializer.unpack.
    rewrite (unpack_stream_pack _ _ _ rest Hp).
    cbn [zip_with norm_item _meta_header_layout mbind result_bind bind py_decode].
    destruct (name_field_roundtrip s b Hb Hlb Hs) as (t & -> & Ht).
    cbn [mbind result_bind bind]. change (str_lit (String zero EmptyString)) with [0].
    rewrite Ht, Hlh. rewrite take_ge by lia. cbn [Nat.sub repeat]. rewrite app_nil_r.
    reflexivity.
Qed.

Section FileDefFacts.

Context {StorageType VerificationType : Type}.
Context {StorageType_enum : IntEnum StorageType}.
Context {VerificationType_enum : IntEnum VerificationType}.

Lemma enum_of_value {E : Type} `{IntEnum E} (e : E) :
  enum_of (PyInt (enum_value e)) = Ok e.
Proof. unfold enum_of. now rewrite enum_call_value. Qed.

Lemma EncryptionType_nibble (e : EncryptionType) : 0 <= enum_value e < 16.
Proof. destruct e; simpl; lia. Qed.

Lemma file_roundtrip (d : FileDef StorageType VerificationType) :
  FileDef_valid d = true ->
  exists buf,
    _file_serializer_pack [] d = Ok (30, buf) /\
    forall rest, _file_serializer_unpack (buf ++ rest) = Ok (d, rest).
Proof.
  destruct d as [np dp lod lia_ st vt en c hp]. unfold FileDef_valid.
  cbn [name_pos data_pos length_on_disk length_in_archive storage_type
       verification encryption crc hash_pos].
  intros H. split_andb.
  destruct np as [|znp| |]; try discriminate.
  destruct dp as [|zdp| |]; try discriminate.
  destruct lod as [|zlod| |]; try discriminate.
  destruct lia_ as [|zlia| |]; try discriminate.
  destruct c as [|zc| |]; try discriminate.
  destruct hp as [|zhp| |]; try discriminate.
  assert (Hst : 0 <= enum_value st < 16) by now apply (fits_range 4).
  pose proof (EncryptionType_nibble en) as Hen.
  set (flags := Z.lor (Z.shiftl (enum_value en) 4) (enum_value st)).
  assert (Hfl : fits 8 (PyInt flags) = true).
  { pose proof (flags_byte _ _ Hst Hen). simpl. fold flags. lia. }
  assert (Hp : exists buf,
             pack _file_layout
               [PyInt znp; PyInt zhp; PyInt zdp; PyInt zlia; PyInt zlod;
                PyInt (enum_value vt); PyInt flags; PyInt zc] = Ok buf).
  { unfold _file_layout. repeat pack_step. cbn. eauto. }
  destruct Hp as [buf Hp]. exists buf. split.
  - unfold _file_serializer_pack, FileDefSerializer.pack, pack_stream.
    cbn [name_pos data_pos length_on_disk length_in_archive storage_type
         verification encryption crc hash_pos].
    change FileDefSerializer.ENCRYPTION_SHIFT with 4. fold flags.
    rewrite Hp. cbn. now rewrite (pack_length _ _ _ Hp).
  - intros rest. unfold _file_serializer_unpack, FileDefSerializer.unpack.
    rewrite (unpack_stream_pack _ _ _ rest Hp).
    cbn [zip_with norm_item _file_layout mbind result_bind bind py_and py_rshift].
    change FileDefSerializer.STORAGE_MASK with 0x0F. change FileDefSerializer.ENCRYPTION_MASK with 0xF0.
    change FileDefSerializer.ENCRYPTION_SHIFT with 4. unfold flags.
    rewrite flags_low_nibble, flags_high_nibble by assumption.
    now rewrite !enum_of_value.
Qed.

End FileDefFacts.

(** * The claims *)

(** C1. Round trip: for every valid [FileDef], [MetaBlock] and [TocFooter]
    (fields that fit their layout slots), packing the record succeeds,
    writes the whole layout (30, 416 and 12 bytes), and unpacking the bytes
    written gives the original record back, whatever follows them in the
    stream. *)
Theorem serializers_roundtrip {StorageType VerificationType : Type}
  {StorageType_enum : IntEnum StorageType}
  {VerificationType_enum : IntEnum VerificationType}
  (d : FileDef StorageType VerificationType) (m : MetaBlock) (f : TocFooter) :
  FileDef_valid d = true -> MetaBlock_valid m = true -> TocFooter_valid f = true ->
  (exists buf, _file_serializer_pack [] d = Ok (30, buf) /\
               forall rest, _file_serializer_unpack (buf ++ rest) = Ok (d, rest)) /\
  (exists buf, _meta_header_serializer_pack [] m = Ok (416, buf) /\
               forall rest, _meta_header_serializer_unpack (buf ++ rest) = Ok (m, rest)) /\
  (exists buf, _toc_footer_serializer_pack [] f = Ok (12, buf) /\
               forall rest, _toc_footer_serializer_unpack (buf ++ rest) = Ok (f, rest)).
Proof.
  intros Hd Hm Hf. split; [|split].
  - now apply file_roundtrip.
  - now apply header_roundtrip.
  - now apply footer_roundtrip.
Qed.

(** The round trips at [sample_file], the placeholder header and
    [sample_footer]. *)
Lemma serializers_roundtrip_witness :
  (FileDef_valid (StorageType_enum := CoreDefinitions.StorageType_enum)
     (VerificationType_enum := CoreDefinitions.VerificationType_enum) sample_file = true /\
   MetaBlock_valid MetaBlock_default = true /\
   TocFooter_valid sample_footer = true) /\
  (exists buf,
      _file_serializer_pack (StorageType_enum := CoreDefinitions.StorageType_enum)
        (VerificationType_enum := CoreDefinitions.VerificationType_enum)
        [] sample_file = Ok (30, buf) /\
      forall rest,
        _file_serializer_unpack (StorageType_enum := CoreDefinitions.StorageType_enum)
          (VerificationType_enum := CoreDefinitions.VerificationType_enum)
          (buf ++ rest) = Ok (sample_file, rest)) /\
  (exists buf, _meta_header_serializer_pack [] MetaBlock_default = Ok (416, buf) /\
               forall rest,
                 _meta_header_serializer_unpack (buf ++ rest) = Ok (MetaBlock_default, rest)) /\
  (exists buf, _toc_footer_serializer_pack [] sample_footer = Ok (12, buf) /\
               forall rest,
                 _toc_footer_serializer_unpack (buf ++ rest) = Ok (sample_footer, rest)).
Proof.
  split.
  - repeat split; vm_compute; reflexivity.
  - apply (serializers_roundtrip (StorageType_enum := CoreDefinitions.StorageType_enum)
             (VerificationType_enum := CoreDefinitions.VerificationType_enum)
             sample_file MetaBlock_default sample_footer);
      vm_compute; reflexivity.
Defined.

(** C2, as stated, fails: a 416-byte header blob whose reserved fields are
    0 and 1 but whose name field starts with a lone surrogate does not
    decode; the name is decoded before the reserved fields are checked. *)
Lemma reserved_check_counterexample :
  let blob := header_blob lone_surrogate_name 0 1 in
  length blob = 416%nat /\
  reserved_fields blob = (PyInt 0, PyInt 1) /\
  _meta_header_serializer_unpack blob = Raise UnicodeDecodeError /\
  ~ (exists r, _meta_header_serializer_unpack blob = Ok r).
Proof.
  cbv zeta. repeat split; try (vm_compute; reflexivity).
  intros [r Hr]. vm_compute in Hr. discriminate.
Qed.

(** C2, amended.  On a header blob whose 128-byte name field is well-formed
    UTF-16-LE, [ArchiveHeaderSerializer.unpack] succeeds when the two
    reserved 32-bit fields are 0 and 1, and for every other pair raises the
    mismatch error that carries the observed pair and the expected pair
    (0, 1). *)
Theorem reserved_check (stream : bytes) (s : str) :
  (416 <= length stream)%nat ->
  Codec.decode (slice 0 128 stream) = Ok s ->
  (reserved_fields stream = (PyInt 0, PyInt 1) ->
   exists m, _meta_header_serializer_unpack stream = Ok (m, skipn 416 stream)
             /\ m.(name) = PyStr (Codec.rstrip [0] s)) /\
  (reserved_fields stream <> (PyInt 0, PyInt 1) ->
   _meta_header_serializer_unpack stream
   = Raise (MismatchError "Reserved Flags" (reserved_fields stream) (PyInt 0, PyInt 1))).
Proof.
  intros Hl Hs. rewrite header_unpack_long by exact Hl. rewrite Hs.
  cbn [mbind result_bind bind]. split; intros Hr.
  - rewrite bool_decide_eq_false_2 by (intros Hn; now apply Hn).
    eexists. split; reflexivity.
  - now rewrite bool_decide_eq_true_2 by exact Hr.
Qed.

(** The reserved-field check on a blob with an all-NUL name and the
    reserved pair (7, 1). *)
Lemma reserved_check_witness :
  let stream := header_blob (repeat Byte.x00 128) 7 1 in
  ((416 <= length stream)%nat /\
   Codec.decode (slice 0 128 stream) = Ok (repeat 0 64)) /\
  (reserved_fields stream = (PyInt 0, PyInt 1) ->
   exists m, _meta_header_serializer_unpack stream = Ok (m, skipn 416 stream)
             /\ m.(name) = PyStr (Codec.rstrip [0] (repeat 0 64))) /\
  (reserved_fields stream <> (PyInt 0, PyInt 1) ->
   _meta_header_serializer_unpack stream
   = Raise (MismatchError "Reserved Flags" (reserved_fields stream) (PyInt 0, PyInt 1))).
Proof.
  cbv zeta. split.
  - split; [vm_compute; lia | vm_compute; reflexivity].
  - apply (reserved_check (header_blob (repeat Byte.x00 128) 7 1) (repeat 0 64)).
    + vm_compute; lia.
    + vm_compute; reflexivity.
Defined.

(** What a successful [FileDefSerializer.pack] wrote. *)
Lemma file_pack_inv {StorageType VerificationType : Type}
  {StorageType_enum : IntEnum StorageType}
  {VerificationType_enum : IntEnum VerificationType}
  (stream : bytes) (d : FileDef StorageType VerificationType) (n : Z) (out : bytes) :
  _file_serializer_pack stream d = Ok (n, out) ->
  exists buf,
    pack _file_layout
      [d.(name_pos); d.(hash_pos); d.(data_pos); d.(length_in_archive);
       d.(length_on_disk); PyInt (enum_value d.(verification));
       PyInt (Z.lor (Z.shiftl (enum_value d.(encryption)) 4) (enum_value d.(storage_type)));
       d.(crc)] = Ok buf /\
    n = 30 /\ out = stream ++ buf /\ length buf = 30%nat.
Proof.
  unfold _file_serializer_pack, FileDefSerializer.pack, pack_stream.
  change FileDefSerializer.ENCRYPTION_SHIFT with 4.
  match goal with
  | |- context [pack ?l ?a] => destruct (pack l a) as [buf|] eqn:Hp; [|discriminate]
  end.
  cbn [mbind result_bind bind]. intros [= <- <-].
  pose proof (pack_length _ _ _ Hp) as Hl. change (size _file_layout) with 30%nat in Hl.
  exists buf. rewrite Hl. repeat split; solve [reflexivity | exact Hp].
Qed.

(** [FileDefSerializer.pack] succeeds on every entry whose fields fit. *)
Lemma file_pack_packable {StorageType VerificationType : Type}
  {StorageType_enum : IntEnum StorageType}
  {VerificationType_enum : IntEnum VerificationType}
  (d : FileDef StorageType VerificationType) :
  FileDef_packable d = true ->
  exists buf, _file_serializer_pack [] d = Ok (30, buf).
Proof.
  destruct d as [np dp lod lia_ st vt en c hp]. unfold FileDef_packable, flags_of.
  cbn [name_pos data_pos length_on_disk length_in_archive storage_type
       verification encryption crc hash_pos].
  intros H. split_andb.
  destruct np as [|znp| |]; try discriminate.
  destruct dp as [|zdp| |]; try discriminate.
  destruct lod as [|zlod| |]; try discriminate.
  destruct lia_ as [|zlia| |]; try discriminate.
  destruct c as [|zc| |]; try discriminate.
  destruct hp as [|zhp| |]; try discriminate.
  assert (Hp : exists buf,
             pack _file_layout
               [PyInt znp; PyInt zhp; PyInt zdp; PyInt zlia; PyInt zlod;
                PyInt (enum_value vt);
                PyInt (Z.lor (Z.shiftl (enum_value en) 4) (enum_value st));
                PyInt zc] = Ok buf).
  { unfold _file_layout. repeat pack_step. cbn. eauto. }
  destruct Hp as [buf Hp]. exists buf.
  unfold _file_serializer_pack, FileDefSerializer.pack, pack_stream.
  cbn [name_pos data_pos length_on_disk length_in_archive storage_type
       verification encryption crc hash_pos].
  change FileDefSerializer.ENCRYPTION_SHIFT with 4.
  rewrite Hp. cbn. now rewrite (pack_length _ _ _ Hp).
Qed.

(** C3. The packed flags byte (offset 25 of the 30-byte entry).
    [FileDefSerializer.unpack] takes the storage type from its low nibble
    ([byte & 0x0F]) and the encryption type from its high nibble
    ([(byte & 0xF0) >> 4]); when either nibble is not a member of its
    enumeration it raises the domain error [ValueError]; when both are (and
    the verification byte is) it returns the entry with exactly these
    members; [FileDefSerializer.pack] succeeds on every entry whose fields
    fit and writes 30 bytes, and whenever it succeeds byte 25 of what it
    wrote is [(encryption << 4) | storage]. *)
Theorem flags_byte_split {StorageType VerificationType : Type}
  {StorageType_enum : IntEnum StorageType}
  {VerificationType_enum : IntEnum VerificationType} (stream : bytes) :
  (30 <= length stream)%nat ->
  let flags := le_combine (slice 25 1 stream) in
  let storage_value := Z.land flags 0x0F in
  let encryption_value := Z.shiftr (Z.land flags 0xF0) 4 in
  (enum_call (E := StorageType) storage_value = None \/
   enum_call (E := EncryptionType) encryption_value = None ->
   _file_serializer_unpack (StorageType := StorageType)
     (VerificationType := VerificationType) stream = Raise ValueError) /\
  (forall st en vt,
     enum_call (E := StorageType) storage_value = Some st ->
     enum_call (E := EncryptionType) encryption_value = Some en ->
     enum_call (E := VerificationType) (le_combine (slice 24 1 stream)) = Some vt ->
     exists d, _file_serializer_unpack stream = Ok (d, skipn 30 stream) /\
               d.(storage_type) = st /\ d.(encryption) = en /\ d.(verification) = vt) /\
  (forall (d : FileDef StorageType VerificationType) rest,
     _file_serializer_unpack stream = Ok (d, rest) ->
     enum_value d.(storage_type) = storage_value /\
     enum_value d.(encryption) = encryption_value) /\
  (forall (d : FileDef StorageType VerificationType) n buf,
     _file_serializer_pack [] d = Ok (n, buf) ->
     le_combine (slice 25 1 buf)
     = Z.lor (Z.shiftl (enum_value d.(encryption)) 4) (enum_value d.(storage_type))) /\
  (forall (d : FileDef StorageType VerificationType),
     FileDef_packable d = true ->
     exists buf,
       _file_serializer_pack [] d = Ok (30, buf) /\
       le_combine (slice 25 1 buf)
       = Z.lor (Z.shiftl (enum_value d.(encryption)) 4) (enum_value d.(storage_type))).
Proof.
  intros Hl flags storage_value encryption_value.
  assert (Hbyte : forall (d : FileDef StorageType VerificationType) n buf,
             _file_serializer_pack [] d = Ok (n, buf) ->
             le_combine (slice 25 1 buf)
             = Z.lor (Z.shiftl (enum_value d.(encryption)) 4)
                     (enum_value d.(storage_type))).
  { intros d n buf Hp. apply file_pack_inv in Hp as (buf' & Hp & _ & -> & Hlen).
    cbn [app] in *.
    pose proof (unpack_stream_pack _ _ _ [] Hp) as H1. rewrite app_nil_r in H1.
    rewrite file_fields in H1 by lia.
    cbn [zip_with norm_item _file_layout] in H1. now injection H1. }
  assert (Hu : _file_serializer_unpack (StorageType := StorageType)
                 (VerificationType := VerificationType) stream
               = storage_type ← enum_of (E := StorageType) (PyInt storage_value);
                 encryption_type ← enum_of (E := EncryptionType) (PyInt encryption_value);
                 verification_type ← enum_of (E := VerificationType)
                                       (PyInt (le_combine (slice 24 1 stream)));
                 Ok ({| name_pos := PyInt (le_combine (slice 0 4 stream));
                        data_pos := PyInt (le_combine (slice 8 8 stream));
                        length_on_disk := PyInt (le_combine (slice 20 4 stream));
                        length_in_archive := PyInt (le_combine (slice 16 4 stream));
                        storage_type := storage_type;
                        encryption := encryption_type;
                        verification := verification_type;
                        crc := PyInt (le_combine (slice 26 4 stream));
                        hash_pos := PyInt (le_combine (slice 4 4 stream)) |},
                     skipn 30 stream)).
  { unfold _file_serializer_unpack, FileDefSerializer.unpack.
    rewrite file_fields by exact Hl. reflexivity. }
  split; [|split; [|split; [|split]]].
  - rewrite Hu. unfold enum_of. intros [Hs|He].
    + now rewrite Hs.
    + rewrite He. now destruct (enum_call storage_value).
  - intros st en vt Hs He Hv. rewrite Hu. unfold enum_of. rewrite Hs, He, Hv.
    cbn [mbind result_bind bind]. eexists. repeat split.
  - intros d rest. rewrite Hu. unfold enum_of.
    destruct (enum_call storage_value) as [st|] eqn:Hs; [|discriminate].
    cbn [mbind result_bind bind].
    destruct (enum_call encryption_value) as [en|] eqn:He; [|discriminate].
    cbn [mbind result_bind bind].
    destruct (enum_call (le_combine (slice 24 1 stream))); [|discriminate].
    intros [= <- _]. cbn [storage_type encryption]. split.
    + now apply enum_value_call.
    + now apply (enum_value_call (E := EncryptionType)).
  - exact Hbyte.
  - intros d Hd. destruct (file_pack_packable d Hd) as [buf Hp].
    exists buf. split; [exact Hp|]. exact (Hbyte d 30 buf Hp).
Qed.

(** A flags byte 0x37: neither nibble is a member, the entry is refused.
    [sample_file] (encryption 1, storage 1) is packed to 30 bytes whose
    byte 25 is 0x11. *)
Lemma flags_byte_split_witness :
  let stream := le_split 4 0 ++ le_split 4 0 ++ le_split 8 0 ++ le_split 4 0
                  ++ le_split 4 0 ++ [Byte.x01; Byte.x37] ++ le_split 4 0 in
  ((30 <= length stream)%nat /\
   FileDef_packable (StorageType_enum := CoreDefinitions.StorageType_enum)
     (VerificationType_enum := CoreDefinitions.VerificationType_enum) sample_file = true) /\
  _file_serializer_unpack (StorageType_enum := CoreDefinitions.StorageType_enum)
    (VerificationType_enum := CoreDefinitions.VerificationType_enum) stream
  = Raise ValueError /\
  exists buf,
    _file_serializer_pack (StorageType_enum := CoreDefinitions.StorageType_enum)
      (VerificationType_enum := CoreDefinitions.VerificationType_enum) [] sample_file
    = Ok (30, buf) /\
    le_combine (slice 25 1 buf) = 0x11 /\
    slice 25 1 buf = [Byte.x11].
Proof.
  cbv zeta. split; [split; [vm_compute; lia | vm_compute; reflexivity]|].
  destruct (flags_byte_split (StorageType_enum := CoreDefinitions.StorageType_enum)
              (VerificationType_enum := CoreDefinitions.VerificationType_enum)
              (le_split 4 0 ++ le_split 4 0 ++ le_split 8 0 ++ le_split 4 0
                 ++ le_split 4 0 ++ [Byte.x01; Byte.x37] ++ le_split 4 0))
    as (Hbad & _ & _ & _ & Hpack); [vm_compute; lia|].
  split.
  - apply Hbad. left. vm_compute. reflexivity.
  - destruct (Hpack sample_file) as (buf & Hp & Hb); [vm_compute; reflexivity|].
    exists buf. split; [exact Hp|]. split; [exact Hb|].
    assert (E : Ok (30, buf)
                = _file_serializer_pack
                    (StorageType_enum := CoreDefinitions.StorageType_enum)
                    (VerificationType_enum := CoreDefinitions.VerificationType_enum)
                    [] sample_file) by (symmetry; exact Hp).
    vm_compute in E. injection E as ->. vm_compute. reflexivity.
Defined.

(** ** The concrete scenario *)

(** C4. The 30-byte little-endian buffer with name_pos=0x10, hash_pos=0x20,
    data_pos=0x1000, length_in_archive=100, length_on_disk=50,
    verification_type=1, flags byte 0x12 and crc=0xDEADBEEF decodes (2 being
    a storage type and 1 a verification type) to the entry with storage type
    2, encryption AES128, verification type 1 and crc 0xDEADBEEF, and
    encoding that entry writes the same 30 bytes. *)
Theorem scenario_decode_encode {StorageType VerificationType : Type}
  {StorageType_enum : IntEnum StorageType}
  {VerificationType_enum : IntEnum VerificationType}
  (st : StorageType) (vt : VerificationType) :
  enum_call 2 = Some st -> enum_call 1 = Some vt ->
  let d := {| name_pos := PyInt 0x10;
              data_pos := PyInt 0x1000;
              length_on_disk := PyInt 50;
              length_in_archive := PyInt 100;
              storage_type := st;
              verification := vt;
              encryption := AES128;
              crc := PyInt 0xDEADBEEF;
              hash_pos := PyInt 0x20 |} in
  scenario_buffer
  = [Byte.x10; Byte.x00; Byte.x00; Byte.x00;
     Byte.x20; Byte.x00; Byte.x00; Byte.x00;
     Byte.x00; Byte.x10; Byte.x00; Byte.x00; Byte.x00; Byte.x00; Byte.x00; Byte.x00;
     Byte.x64; Byte.x00; Byte.x00; Byte.x00;
     Byte.x32; Byte.x00; Byte.x00; Byte.x00;
     Byte.x01; Byte.x12;
     Byte.xef; Byte.xbe; Byte.xad; Byte.xde] /\
  _file_serializer_unpack scenario_buffer = Ok (d, []) /\
  enum_value d.(storage_type) = 2 /\
  enum_value d.(verification) = 1 /\
  _file_serializer_pack [] d = Ok (30, scenario_buffer).
Proof.
  intros Hst Hvt d.
  pose proof (enum_value_call _ _ Hst) as Hs2.
  pose proof (enum_value_call _ _ Hvt) as Hv1.
  split; [vm_compute; reflexivity|]. split; [|split; [|split]].
  - unfold _file_serializer_unpack, FileDefSerializer.unpack.
    change (unpack_stream _file_layout scenario_buffer)
      with (Ok ([PyInt 0x10; PyInt 0x20; PyInt 0x1000; PyInt 100; PyInt 50;
                 PyInt 1; PyInt 0x12; PyInt 0xDEADBEEF], @nil byte)).
    cbn [mbind result_bind bind py_and py_rshift].
    change (Z.land 18 FileDefSerializer.STORAGE_MASK) with 2.
    change (Z.shiftr (Z.land 18 FileDefSerializer.ENCRYPTION_MASK) FileDefSerializer.ENCRYPTION_SHIFT) with 1.
    unfold enum_of. rewrite Hst, Hvt. reflexivity.
  - exact Hs2.
  - exact Hv1.
  - unfold _file_serializer_pack, FileDefSerializer.pack. subst d.
    cbn [name_pos data_pos length_on_disk length_in_archive storage_type
         verification encryption crc hash_pos].
    rewrite Hs2, Hv1. vm_compute. reflexivity.
Qed.

(** The scenario over the concrete enumerations: storage type 2 is
    [BUFFER_COMPRESS], verification type 1 is [CRC]. *)
Lemma scenario_decode_encode_witness :
  (CoreDefinitions.StorageType_call 2 = Some CoreDefinitions.BUFFER_COMPRESS /\
   CoreDefinitions.VerificationType_call 1 = Some CoreDefinitions.CRC) /\
  _file_serializer_unpack (StorageType_enum := CoreDefinitions.StorageType_enum)
    (VerificationType_enum := CoreDefinitions.VerificationType_enum) scenario_buffer
  = Ok ({| name_pos := PyInt 0x10;
           data_pos := PyInt 0x1000;
           length_on_disk := PyInt 50;
           length_in_archive := PyInt 100;
           storage_type := CoreDefinitions.BUFFER_COMPRESS;
           verification := CoreDefinitions.CRC;
           encryption := AES128;
           crc := PyInt 0xDEADBEEF;
           hash_pos := PyInt 0x20 |}, []).
Proof.
  split; [split; reflexivity|].
  exact (proj1 (proj2 (scenario_decode_encode (StorageType_enum := CoreDefinitions.StorageType_enum)
                         (VerificationType_enum := CoreDefinitions.VerificationType_enum)
                         CoreDefinitions.BUFFER_COMPRESS CoreDefinitions.CRC
                         eq_refl eq_refl))).
Defined.

(** C5. Whatever the [MetaBlock] holds, a successful
    [ArchiveHeaderSerializer.pack] writes 416 bytes whose two reserved
    fields are the constants 0 and 1; the record has no field that could
    change them. *)
Theorem reserved_constants (stream : bytes) (m : MetaBlock) (n : Z) (out : bytes) :
  _meta_header_serializer_pack stream m = Ok (n, out) ->
  exists buf, out = stream ++ buf /\ length buf = 416%nat /\
              reserved_fields buf = (PyInt 0, PyInt 1).
Proof.
  intros Hp. apply header_pack_inv in Hp as (s & b & p & buf & _ & _ & _ & Hp & _ & -> & Hl).
  exists buf. split; [reflexivity|]. split; [exact Hl|].
  pose proof (unpack_stream_pack _ _ _ [] Hp) as H1. rewrite app_nil_r in H1.
  rewrite header_fields in H1 by lia.
  cbn [zip_with norm_item _meta_header_layout] in H1.
  unfold reserved_fields. injection H1 as _ _ _ _ _ H5 H6 _. now rewrite H5, H6.
Qed.

(** The reserved fields of the packed placeholder header. *)
Lemma reserved_constants_witness :
  let out := (the (_meta_header_serializer_pack [] MetaBlock_default)).2 in
  _meta_header_serializer_pack [] MetaBlock_default = Ok (416, out) /\
  exists buf, out = [] ++ buf /\ length buf = 416%nat /\
              reserved_fields buf = (PyInt 0, PyInt 1).
Proof.
  cbv zeta. split; [vm_compute; reflexivity|].
  apply (reserved_constants [] MetaBlock_default 416). vm_compute. reflexivity.
Defined.

(** ** Metadata dictionaries *)

Ltac dict_lookup :=
  unfold getitem;
  repeat first [ rewrite lookup_insert_eq
               | rewrite lookup_insert_ne by discriminate ].

(** C6. For every [MetaBlock] (with a bytes hash) and every [TocFooter],
    [disassemble_meta] applied to the dictionary built by [assemble_meta]
    gives back the footer (unk_a, unk_b, block_size) and the hash bytes,
    which travel as lower-case hexadecimal text, and leaves the name and
    the pointers of the returned [MetaBlock] unset. *)
Theorem metadata_roundtrip (io io' : BinaryIO) (nm : object)
  (pt : option ArchivePtrs.t) (h : bytes) (footer : TocFooter) :
  let header := {| name := nm; ptrs := pt; sha_256 := PyBytes h |} in
  exists metadata,
    assemble_meta io header footer = Ok metadata /\
    metadata !! "sha_256" = Some (PyStr (Codec.hex h)) /\
    disassemble_meta io' metadata
    = Ok ({| name := PyNone; ptrs := None; sha_256 := PyBytes h |}, footer).
Proof.
  intros header. unfold assemble_meta. cbn [header sha_256 py_hex mbind result_bind bind].
  eexists. split; [reflexivity|]. split.
  - now rewrite lookup_insert_eq.
  - unfold disassemble_meta. dict_lookup. cbn [mbind result_bind bind py_fromhex].
    rewrite fromhex_hex. cbn [mbind result_bind bind]. now destruct footer.
Qed.

Lemma length_concat_repeat {A : Type} (l : list A) (n : nat) :
  length (concat (repeat l n)) = (n * length l)%nat.
Proof.
  induction n as [|n IH]; [reflexivity|].
  cbn [repeat concat]. rewrite length_app, IH. lia.
Qed.

(** C7, as stated, fails: the placeholder hash is not 32 repeats of any
    16-byte pattern (it is 256 bytes long, not 512). *)
Lemma default_hash_counterexample :
  ~ (exists pattern : bytes,
        length pattern = 16%nat /\
        MetaBlock_default.(sha_256) = PyBytes (concat (repeat pattern 32))).
Proof.
  intros (pattern & Hl & Hs).
  assert (Hn : 256%nat = length (concat (repeat pattern 32))).
  { apply (f_equal (fun o => match o with PyBytes b => length b | _ => 0%nat end)) in Hs.
    exact Hs. }
  unfold bytes in Hn. rewrite length_concat_repeat, Hl in Hn. discriminate.
Qed.

(** C7, amended.  [MetaBlock.default()] returns a placeholder whose dummy
    hash is 16 repeats of the fixed 16-byte pattern [b"default hash.   "]
    (256 bytes, the width of the hash field), whose pointers are the
    default pointers, all zero, and whose name is "Default Meta Block". *)
Theorem default_meta_block :
  let pattern := bytes_lit "default hash.   " in
  length pattern = 16%nat /\
  MetaBlock_default.(sha_256) = PyBytes (concat (repeat pattern 16)) /\
  length (concat (repeat pattern 16)) = 256%nat /\
  MetaBlock_default.(ptrs) = Some ArchivePtrs.default /\
  ArchivePtrs.default = ArchivePtrs.Build_t (PyInt 0) (PyInt 0) (PyInt 0) (PyInt 0) /\
  MetaBlock_default.(name) = PyStr (str_lit "Default Meta Block").
Proof.
  cbv zeta. repeat split.
Qed.

(** C8, as stated, fails: decoding a header blob yields a hash of 256
    bytes, not 32, and encoding accepts the placeholder header, whose hash
    is 256 bytes. *)
Lemma hash_width_counterexample :
  exists m h,
    _meta_header_serializer_unpack (header_blob (repeat Byte.x00 128) 0 1) = Ok (m, []) /\
    m.(sha_256) = PyBytes h /\ length h <> 32%nat /\
    exists buf, _meta_header_serializer_pack [] m = Ok (416, buf).
Proof.
  eexists. exists (repeat Byte.x00 256). split; [vm_compute; reflexivity|].
  split; [reflexivity|]. split; [vm_compute; discriminate|].
  eexists. vm_compute. reflexivity.
Qed.

(** C8, amended.  The content hash carried by a [MetaBlock] is 256 bytes of
    raw bytes: every [MetaBlock] produced by decoding has a hash of exactly
    256 bytes, and for every [MetaBlock] accepted by encoding the hash is a
    bytes value written to the 256-byte hash field at offset 160, cut to
    256 bytes or padded with NUL bytes when it has another length. *)
Theorem hash_width (stream rest out : bytes) (m m' : MetaBlock) (n : Z) :
  _meta_header_serializer_unpack stream = Ok (m, rest) ->
  _meta_header_serializer_pack [] m' = Ok (n, out) ->
  (exists h, m.(sha_256) = PyBytes h /\ length h = 256%nat) /\
  (exists h', m'.(sha_256) = PyBytes h' /\
              slice 160 256 out = firstn 256 h' ++ repeat Byte.x00 (256 - length h')).
Proof.
  intros Hu Hp. split.
  - destruct (Nat.lt_ge_cases (length stream) 416) as [Hs|Hs].
    + rewrite header_unpack_short in Hu by exact Hs. discriminate.
    + rewrite header_unpack_long in Hu by exact Hs.
      destruct (Codec.decode (slice 0 128 stream)); [|discriminate].
      cbn [mbind result_bind bind] in Hu.
      destruct (bool_decide _); [discriminate|]. injection Hu as <- _.
      eexists. split; [reflexivity|]. unfold slice.
      rewrite length_take, length_drop. lia.
  - apply header_pack_inv in Hp as (s & b & p & buf & _ & _ & _ & Hp & _ & -> & Hl).
    cbn [app].
    pose proof (unpack_stream_pack _ _ _ [] Hp) as H1. rewrite app_nil_r in H1.
    rewrite header_fields in H1 by lia.
    cbn [zip_with norm_item _meta_header_layout] in H1.
    injection H1 as _ _ _ _ _ _ _ H8.
    destruct (sha_256 m') as [| | |h'] eqn:Hh; try discriminate.
    exists h'. split; [reflexivity|]. now injection H8.
Qed.

(** The hash of a decoded all-NUL header and of the packed placeholder. *)
Lemma hash_width_witness :
  let stream := header_blob (repeat Byte.x00 128) 0 1 in
  let m := (the (_meta_header_serializer_unpack stream)).1 in
  let out := (the (_meta_header_serializer_pack [] MetaBlock_default)).2 in
  (_meta_header_serializer_unpack stream = Ok (m, []) /\
   _meta_header_serializer_pack [] MetaBlock_default = Ok (416, out)) /\
  (exists h, m.(sha_256) = PyBytes h /\ length h = 256%nat) /\
  (exists h', MetaBlock_default.(sha_256) = PyBytes h' /\
              slice 160 256 out = firstn 256 h' ++ repeat Byte.x00 (256 - length h')).
Proof.
  cbv zeta. split.
  - split; vm_compute; reflexivity.
  - apply (hash_width (header_blob (repeat Byte.x00 128) 0 1) [] _ _ MetaBlock_default 416);
      vm_compute; reflexivity.
Defined.

(** C9. For every [FileDef] (its storage type, verification and encryption
    being members of their enumerations), [meta2def (def2meta d)] returns a
    [FileDef] with the same storage type, verification, encryption,
    hash_pos and crc, and with name_pos, data_pos, length_in_archive and
    length_on_disk unset. *)
Theorem file_metadata_roundtrip {StorageType VerificationType : Type}
  {StorageType_enum : IntEnum StorageType}
  {VerificationType_enum : IntEnum VerificationType}
  (d : FileDef StorageType VerificationType) :
  meta2def (def2meta d)
  = Ok {| name_pos := PyNone;
          data_pos := PyNone;
          length_on_disk := PyNone;
          length_in_archive := PyNone;
          storage_type := d.(storage_type);
          verification := d.(verification);
          encryption := d.(encryption);
          crc := d.(crc);
          hash_pos := d.(hash_pos) |}.
Proof.
  unfold meta2def, def2meta. dict_lookup. cbn [mbind result_bind bind].
  rewrite !enum_of_value. reflexivity.
Qed.

(** ** Names that do not fit *)

(** C10. For every [MetaBlock] (pointers that fit their slots, a bytes
    hash) whose name has a UTF-16-LE encoding, however long,
    [ArchiveHeaderSerializer.pack] does not raise: the name field of the
    output is the encoding cut to 128 bytes (NUL-padded when shorter).  When
    the encoding is longer than 128 bytes, the field is its first 128 bytes
    and whatever [unpack] returns on the output has another name, so
    [unpack (pack m)] is not [m].  Consequently the round trip holds only
    for names whose encoding fits in 128 bytes and that do not end in NUL. *)
Theorem long_name_truncated (m : MetaBlock) (s : str) (b : bytes)
  (p : ArchivePtrs.t) (h : bytes) :
  m.(name) = PyStr s -> Codec.encode s = Ok b ->
  m.(ptrs) = Some p ->
  fits 64 p.(ArchivePtrs.header_pos) = true -> fits 32 p.(ArchivePtrs.header_size) = true ->
  fits 64 p.(ArchivePtrs.data_pos) = true -> fits 32 p.(ArchivePtrs.data_size) = true ->
  m.(sha_256) = PyBytes h ->
  exists buf,
    _meta_header_serializer_pack [] m = Ok (416, buf) /\
    slice 0 128 buf = firstn 128 b ++ repeat Byte.x00 (128 - length b) /\
    ((128 < length b)%nat ->
     slice 0 128 buf = firstn 128 b /\
     (forall rest m' rest',
        _meta_header_serializer_unpack (buf ++ rest) = Ok (m', rest') ->
        m'.(name) <> m.(name)) /\
     (forall rest, _meta_header_serializer_unpack (buf ++ rest) <> Ok (m, rest))) /\
    (forall rest,
       _meta_header_serializer_unpack (buf ++ rest) = Ok (m, rest) ->
       (length b <= 128)%nat /\ List.last s 1 <> 0).
Proof.
  destruct m as [nm pt sh]. cbn [name ptrs sha_256].
  intros -> Hb -> Hhp Hhs Hdp Hds ->.
  destruct p as [hp hs dp ds].
  cbn [ArchivePtrs.header_pos ArchivePtrs.header_size
       ArchivePtrs.data_pos ArchivePtrs.data_size] in *.
  destruct hp as [|zhp| |]; try discriminate.
  destruct hs as [|zhs| |]; try discriminate.
  destruct dp as [|zdp| |]; try discriminate.
  destruct ds as [|zds| |]; try discriminate.
  pose proof (encode_length _ _ Hb) as Hu.
  assert (Hp : exists buf,
             pack _meta_header_layout
               [PyBytes b; PyInt zhp; PyInt zhs; PyInt zdp; PyInt zds;
                PyInt 0; PyInt 1; PyBytes h] = Ok buf).
  { unfold _meta_header_layout. repeat pack_step. cbn. eauto. }
  destruct Hp as [buf Hp]. exists buf.
  pose proof (pack_length _ _ _ Hp) as Hl.
  change (size _meta_header_layout) with 416%nat in Hl.
  (* what [unpack] does on the bytes written *)
  assert (Hun : forall rest m' rest',
             _meta_header_serializer_unpack (buf ++ rest) = Ok (m', rest') ->
             exists t, Codec.decode (firstn 128 b ++ repeat Byte.x00 (128 - length b)) = Ok t
                       /\ m'.(name) = PyStr (Codec.rstrip [0] t)).
  { intros rest m' rest'.
    unfold _meta_header_serializer_unpack, ArchiveHeaderSerializer.unpack.
    rewrite (unpack_stream_pack _ _ _ rest Hp).
    cbn [zip_with norm_item _meta_header_layout mbind result_bind bind py_decode].
    destruct (Codec.decode _) as [t|]; [|discriminate].
    cbn [mbind result_bind bind].
    destruct (bool_decide _); [discriminate|]. intros [= <- _].
    exists t. split; reflexivity. }
  (* a name longer than the field never comes back *)
  assert (Hlong : (128 < length b)%nat ->
                  forall rest m' rest',
                    _meta_header_serializer_unpack (buf ++ rest) = Ok (m', rest') ->
                    m'.(name) <> PyStr s).
  { intros Hgt rest m' rest' Hm'.
    destruct (Hun _ _ _ Hm') as (t & Ht & ->). intros [= Heq].
    apply decode_units in Ht.
    rewrite length_app, length_take, repeat_length in Ht.
    pose proof (rstrip_units [0] t) as Hr. rewrite Heq in Hr. lia. }
  split; [|split; [|split]].
  - unfold _meta_header_serializer_pack, ArchiveHeaderSerializer.pack, pack_stream.
    cbn [name ptrs sha_256 py_encode]. rewrite Hb. cbn [mbind result_bind bind].
    cbn [ArchivePtrs.header_pos ArchivePtrs.header_size
         ArchivePtrs.data_pos ArchivePtrs.data_size].
    change ArchiveHeaderSerializer.RSV_0 with 0. change ArchiveHeaderSerializer.RSV_1 with 1.
    rewrite Hp. cbn. now rewrite Hl.
  - pose proof (unpack_stream_pack _ _ _ [] Hp) as H1. rewrite app_nil_r in H1.
    rewrite header_fields in H1 by lia.
    cbn [zip_with norm_item _meta_header_layout] in H1. now injection H1.
  - intros Hgt. split; [|split].
    + pose proof (unpack_stream_pack _ _ _ [] Hp) as H1. rewrite app_nil_r in H1.
      rewrite header_fields in H1 by lia.
      cbn [zip_with norm_item _meta_header_layout] in H1.
      injection H1 as H1 _ _ _ _ _ _ _. rewrite H1.
      replace (128 - length b)%nat with 0%nat by lia. apply app_nil_r.
    + intros rest m' rest' Hm'. cbn [name]. now apply (Hlong Hgt rest m' rest').
    + intros rest Hm. now apply (Hlong Hgt rest _ _ Hm).
  - intros rest Hm. split.
    + destruct (Nat.le_gt_cases (length b) 128) as [Hle|Hgt]; [exact Hle|].
      now destruct (Hlong Hgt rest _ _ Hm).
    + destruct (Hun _ _ _ Hm) as (t & _ & Ht). cbn [name] in Ht.
      injection Ht as ->. apply rstrip_last.
Qed.

(** A name of 65 letters is cut to 64 and does not come back. *)
Lemma long_name_truncated_witness :
  (Codec.encode long_name = Ok (flat_map (le_split 2) long_name) /\
   (128 < length (flat_map (le_split 2) long_name))%nat) /\
  exists buf,
    _meta_header_serializer_pack [] long_name_block = Ok (416, buf) /\
    slice 0 128 buf = firstn 128 (flat_map (le_split 2) long_name) /\
    forall rest, _meta_header_serializer_unpack (buf ++ rest) <> Ok (long_name_block, rest).
Proof.
  split; [split; [vm_compute; reflexivity | vm_compute; lia]|].
  destruct (long_name_truncated long_name_block long_name
              (flat_map (le_split 2) long_name) ArchivePtrs.default (repeat Byte.x00 256))
    as (buf & Hp & _ & Hlong & _); try (vm_compute; reflexivity).
  exists buf. split; [exact Hp|].
  destruct Hlong as (Hf & _ & Hne); [vm_compute; lia|].
  split; [exact Hf | exact Hne].
Defined.

(** * Further properties of the serializers *)

(** The concrete enumerations serve the instances at concrete values. *)
#[local] Existing Instance CoreDefinitions.StorageType_enum.
#[local] Existing Instance CoreDefinitions.VerificationType_enum.

(** ** More on the codec and the layouts *)

Section MoreCodecFacts.
Import Codec.

(** [encode] inverts [decode]. *)
Lemma encode_decode_bounded (n : nat) (x : bytes) (t : str) :
  (length x <= n)%nat -> decode x = Ok t -> encode t = Ok x.
Proof.
  revert x t. induction n as [|n IH]; intros x t Hn.
  - destruct x; [|simpl in Hn; lia]. now intros [= <-].
  - destruct x as [|b0 [|b1 rest]]; [now intros [= <-] | discriminate |].
    cbn [decode]. pose proof (le_combine_2_bound b0 b1) as Hu.
    pose proof (split_le_combine [b0; b1]) as Hsp. cbn [length] in Hsp.
    set (u := le_combine [b0; b1]) in *. simpl in Hn.
    destruct (Z.ltb_spec u 55296) as [Hlo|Hlo]; [|destruct (Z.ltb_spec 57343 u) as [Hhi|Hhi]];
      cbn [orb].
    + destruct (decode rest) as [t'|] eqn:Ht; [|discriminate]. intros [= <-].
      cbn [encode]. unfold encode_char.
      destruct (Z.ltb_spec u 0); [lia|]. destruct (Z.ltb_spec 1114111 u); [lia|].
      destruct (Z.leb_spec 55296 u); [lia|]. cbn [orb andb].
      destruct (Z.ltb_spec u 65536); [|lia].
      cbn [mbind result_bind bind]. rewrite (IH rest t') by (lia || exact Ht).
      cbn [mbind result_bind bind]. now rewrite Hsp.
    + destruct (decode rest) as [t'|] eqn:Ht; [|discriminate]. intros [= <-].
      cbn [encode]. unfold encode_char.
      destruct (Z.ltb_spec u 0); [lia|]. destruct (Z.ltb_spec 1114111 u); [lia|].
      destruct (Z.leb_spec 55296 u); [|lia]. destruct (Z.leb_spec u 57343); [lia|].
      cbn [orb andb]. destruct (Z.ltb_spec u 65536); [|lia].
      cbn [mbind result_bind bind]. rewrite (IH rest t') by (lia || exact Ht).
      cbn [mbind result_bind bind]. now rewrite Hsp.
    + destruct (Z.leb_spec u 56319) as [Hu2|]; [|discriminate].
      destruct rest as [|b2 [|b3 rest']]; [discriminate..|].
      pose proof (le_combine_2_bound b2 b3) as Hv.
      pose proof (split_le_combine [b2; b3]) as Hsp'. cbn [length] in Hsp'.
      set (v := le_combine [b2; b3]) in *.
      destruct (Z.leb_spec 56320 v) as [Hv1|]; [|discriminate].
      destruct (Z.leb_spec v 57343) as [Hv2|]; [|discriminate]. cbn [andb].
      destruct (decode rest') as [t'|] eqn:Ht; [|discriminate]. intros [= <-].
      assert (Hua : Z.land u 1023 = u - 55296).
      { change 1023 with (Z.ones 10). rewrite Z.land_ones by lia.
        change (2 ^ 10) with 1024. Z.div_mod_to_equations; lia. }
      assert (Hva : Z.land v 1023 = v - 56320).
      { change 1023 with (Z.ones 10). rewrite Z.land_ones by lia.
        change (2 ^ 10) with 1024. Z.div_mod_to_equations; lia. }
      rewrite Hua, Hva, Z.shiftl_mul_pow2 by lia. change (2 ^ 10) with 1024.
      set (c := 65536 + (u - 55296) * 1024 + (v - 56320)).
      assert (Hc : 65536 <= c <= 1114111) by (subst c; lia).
      cbn [encode]. unfold encode_char.
      destruct (Z.ltb_spec c 0); [lia|]. destruct (Z.ltb_spec 1114111 c); [lia|].
      destruct (Z.leb_spec 55296 c); [|lia]. destruct (Z.leb_spec c 57343); [lia|].
      cbn [orb andb]. destruct (Z.ltb_spec c 65536); [lia|].
      replace (55296 + Z.shiftr (c - 65536) 10) with u.
      2:{ rewrite Z.shiftr_div_pow2 by lia. change (2 ^ 10) with 1024.
          subst c. Z.div_mod_to_equations; lia. }
      replace (56320 + Z.land (c - 65536) 1023) with v.
      2:{ change 1023 with (Z.ones 10). rewrite Z.land_ones by lia.
          change (2 ^ 10) with 1024. subst c. Z.div_mod_to_equations; lia. }
      cbn [mbind result_bind bind]. simpl in Hn.
      rewrite (IH rest' t') by (lia || exact Ht).
      cbn [mbind result_bind bind]. now rewrite Hsp, Hsp'.
Qed.

Lemma encode_decode (x : bytes) (t : str) : decode x = Ok t -> encode t = Ok x.
Proof. apply (encode_decode_bounded (length x)). lia. Qed.

Lemma encode_app (s t : str) :
  encode (s ++ t) = bs ← encode s; bt ← encode t; Ok (bs ++ bt).
Proof.
  induction s as [|c s IH]; cbn [app encode].
  - cbn. now destruct (encode t).
  - destruct (encode_char c) as [bc|]; [|reflexivity]. cbn [mbind result_bind bind].
    rewrite IH. destruct (encode s) as [bs|]; [|reflexivity]. cbn [mbind result_bind bind].
    destruct (encode t) as [bt|]; [|reflexivity]. cbn. now rewrite app_assoc.
Qed.

Lemma encode_zeros (k : nat) : encode (repeat 0 k) = Ok (repeat Byte.x00 (2 * k)).
Proof.
  induction k as [|k IH]; [reflexivity|].
  replace (2 * S k)%nat with (S (S (2 * k))) by lia.
  cbn [repeat encode]. rewrite IH. reflexivity.
Qed.

(** [rstrip] only removes NULs from the end. *)
Lemma rstrip_split (t : str) : exists k, t = rstrip [0] t ++ repeat 0 k.
Proof.
  induction t as [|c t [k IH]]; [now exists 0%nat|].
  cbn [rstrip]. destruct (rstrip [0] t) as [|a r] eqn:Hr.
  - destruct (bool_decide_reflect (c ∈ [0])) as [Hc|Hc].
    + apply list_elem_of_singleton in Hc as ->. exists (S k).
      cbn [app] in *. now rewrite IH.
    + exists k. cbn [app] in *. now rewrite IH.
  - exists k. rewrite IH at 1. reflexivity.
Qed.

(** The only error of [decode] is [UnicodeDecodeError]. *)
Lemma decode_raise_bounded (n : nat) (x : bytes) (e : exn) :
  (length x <= n)%nat -> decode x = Raise e -> e = UnicodeDecodeError.
Proof.
  revert x. induction n as [|n IH]; intros x Hn.
  - destruct x; [discriminate|simpl in Hn; lia].
  - destruct x as [|b0 [|b1 rest]]; [discriminate | now intros [= <-] |].
    cbn [decode]. simpl in Hn.
    destruct (_ || _).
    + destruct (decode rest) eqn:Hd; [discriminate|]. cbn. intros [= <-].
      apply (IH rest); [lia | exact Hd].
    + destruct (_ <=? _); [|now intros [= <-]].
      destruct rest as [|b2 [|b3 rest']]; [now intros [= <-]..|].
      destruct (_ && _); [|now intros [= <-]].
      destruct (decode rest') eqn:Hd; [discriminate|]. cbn. intros [= <-].
      simpl in Hn. apply (IH rest'); [lia | exact Hd].
Qed.

Lemma decode_raise (x : bytes) (e : exn) : decode x = Raise e -> e = UnicodeDecodeError.
Proof. apply (decode_raise_bounded (length x)). lia. Qed.

(** The only error of [fromhex] is [ValueError]. *)
Lemma fromhex_raise (s : str) (e : exn) : fromhex s = Raise e -> e = ValueError.
Proof.
  remember (length s) as n eqn:Hn. revert s Hn.
  induction n as [n IH] using lt_wf_ind. intros s ->.
  destruct s as [|c s]; [discriminate|]. cbn [fromhex].
  destruct (isspace c).
  - apply (IH (length s)); [simpl; lia | reflexivity].
  - destruct (digit_value c); [|now intros [= <-]].
    destruct s as [|d s]; [now intros [= <-]|].
    destruct (digit_value d); [|now intros [= <-]].
    destruct (fromhex s) eqn:Hs; [discriminate|]. cbn. intros [= <-].
    apply (IH (length s) ltac:(simpl; lia) s eq_refl Hs).
Qed.

End MoreCodecFacts.

Section MoreStructFacts.

(** The only error of [pack] is [struct.error]. *)
Lemma pack_item_raise (c : code) (o : object) (e : exn) :
  pack_item c o = Raise e -> e = StructError.
Proof.
  destruct c, o; simpl; try (now intros [= <-]);
    try (destruct (_ && _); [discriminate|now intros [= <-]]).
Qed.

Lemma pack_raise (layout : list code) (args : list object) (e : exn) :
  pack layout args = Raise e -> e = StructError.
Proof.
  revert args. induction layout as [|c l IH]; intros [|o args]; simpl;
    try discriminate; try (now intros [= <-]).
  destruct (pack_item c o) eqn:Hi; cbn.
  - destruct (pack l args) eqn:Hp; cbn; [discriminate|].
    intros [= <-]. now apply (IH args).
  - intros [= <-]. now apply pack_item_raise in Hi.
Qed.

(** An integer item is packed exactly when it fits its slot. *)
Lemma pack_item_int_fits (c : code) (o : object) :
  (forall n, c <> code_s n) ->
  pack_item c o
  = if fits (8 * Z.of_nat (code_size c)) o
    then Ok (le_split (code_size c) (int_of o))
    else Raise StructError.
Proof.
  intros Hc. destruct c; try (now destruct (Hc n)); destruct o; reflexivity.
Qed.

Lemma fits_le_combine (n : nat) (b : bytes) :
  length b = n -> fits (8 * Z.of_nat n) (PyInt (le_combine b)) = true.
Proof.
  intros <-. pose proof (le_combine_bound b) as H. simpl.
  destruct (Z.leb_spec 0 (le_combine b)); [|lia].
  destruct (Z.ltb_spec (le_combine b) (2 ^ (8 * Z.of_nat (length b)))); [reflexivity|lia].
Qed.

Lemma length_slice (off n : nat) (s : bytes) :
  (off + n <= length s)%nat -> length (slice off n s) = n.
Proof. intros H. unfold slice. rewrite length_take, length_drop. lia. Qed.

Lemma le_split_combine_slice (off n : nat) (s : bytes) :
  (off + n <= length s)%nat ->
  le_split n (le_combine (slice off n s)) = slice off n s.
Proof.
  intros H. rewrite <- (length_slice off n s H) at 1. apply split_le_combine.
Qed.

(** Adjacent slices join. *)
Lemma slice_app (off a b c : nat) (s : bytes) :
  c = (off + a)%nat -> slice off a s ++ slice c b s = slice off (a + b) s.
Proof.
  intros ->. unfold slice. rewrite <- (drop_drop s a off). apply take_take_drop.
Qed.

Lemma slice_0 (n : nat) (s : bytes) : slice 0 n s = firstn n s.
Proof. reflexivity. Qed.

(** The fields of a footer, by offset. *)
Lemma footer_fields (stream : bytes) :
  (12 <= length stream)%nat ->
  unpack_stream _toc_footer_layout stream
  = Ok ([PyInt (le_combine (slice 0 4 stream));
         PyInt (le_combine (slice 4 4 stream));
         PyInt (le_combine (slice 8 4 stream))], skipn 12 stream).
Proof.
  intros H. rewrite unpack_stream_long by exact H.
  change (size _toc_footer_layout) with 12%nat.
  unfold _toc_footer_layout. cbn [unpack_items unpack_item code_size].
  rewrite !drop_drop. cbn [Nat.add].
  change (firstn 4 (firstn 12 stream))
    with (firstn 4 (skipn 0 (firstn 12 stream))).
  rewrite !slice_take by lia. reflexivity.
Qed.

(** One byte, its two nibbles put back together. *)
Lemma flags_join (b : byte) :
  Z.lor (Z.shiftl (Z.shiftr (Z.land (byte.unsigned b) 0xF0) 4) 4)
        (Z.land (byte.unsigned b) 0x0F)
  = byte.unsigned b.
Proof. destruct b; reflexivity. Qed.

Lemma le_combine_byte (b : byte) : le_combine [b] = byte.unsigned b.
Proof. destruct b; reflexivity. Qed.

Lemma fits_byte (b : byte) : fits 8 (PyInt (byte.unsigned b)) = true.
Proof. destruct b; reflexivity. Qed.

Lemma fits_low_nibble (b : byte) :
  fits 4 (PyInt (Z.land (byte.unsigned b) 0x0F)) = true.
Proof. destruct b; reflexivity. Qed.

End MoreStructFacts.

(** ** The footer *)

Lemma footer_unpack_eq (stream : bytes) :
  _toc_footer_serializer_unpack stream
  = if (length stream <? 12)%nat then Raise StructError
    else Ok ({| unk_a := PyInt (le_combine (slice 0 4 stream));
                unk_b := PyInt (le_combine (slice 4 4 stream));
                block_size := PyInt (le_combine (slice 8 4 stream)) |},
             skipn 12 stream).
Proof.
  unfold _toc_footer_serializer_unpack, TocFooterSerializer.unpack.
  destruct (Nat.ltb_spec (length stream) 12) as [H|H].
  - now rewrite unpack_stream_short by exact H.
  - now rewrite footer_fields by exact H.
Qed.

Lemma footer_pack_eq (stream : bytes) (f : TocFooter) :
  _toc_footer_serializer_pack stream f
  = if TocFooter_valid f
    then Ok (12, stream ++ le_split 4 (int_of f.(unk_a)) ++ le_split 4 (int_of f.(unk_b))
                        ++ le_split 4 (int_of f.(block_size)))
    else Raise StructError.
Proof.
  unfold _toc_footer_serializer_pack, TocFooterSerializer.pack, pack_stream,
    TocFooter_valid, _toc_footer_layout.
  cbn [pack]. rewrite !pack_item_int_fits by discriminate.
  change (8 * Z.of_nat (code_size code_I)) with 32. cbn [code_size].
  destruct (fits 32 (unk_a f)); [|reflexivity]. cbn [mbind result_bind bind andb].
  destruct (fits 32 (unk_b f)); [|reflexivity]. cbn [mbind result_bind bind andb].
  destruct (fits 32 (block_size f)); [|reflexivity]. cbn [mbind result_bind bind andb].
  rewrite app_nil_r, !length_app, !length_le_split. reflexivity.
Qed.

(** X1. [TocFooterSerializer.unpack] validates nothing: a stream shorter
    than 12 bytes is a [struct.error]; any longer stream decodes to the
    three little-endian 32-bit integers at offsets 0, 4 and 8, and the
    stream is left after the twelfth byte. *)
Theorem footer_decode (stream : bytes) :
  _toc_footer_serializer_unpack stream
  = if (length stream <? 12)%nat then Raise StructError
    else Ok ({| unk_a := PyInt (le_combine (slice 0 4 stream));
                unk_b := PyInt (le_combine (slice 4 4 stream));
                block_size := PyInt (le_combine (slice 8 4 stream)) |},
             skipn 12 stream).
Proof. apply footer_unpack_eq. Qed.

(** X2. On a fresh stream [TocFooterSerializer.pack] returns 12 and writes
    exactly 12 bytes, the three fields in little-endian order, when each
    field is an integer that fits 32 bits; otherwise it raises
    [struct.error]. *)
Theorem footer_pack_spec (f : TocFooter) :
  _toc_footer_serializer_pack [] f
  = if TocFooter_valid f
    then Ok (12, le_split 4 (int_of f.(unk_a)) ++ le_split 4 (int_of f.(unk_b))
                   ++ le_split 4 (int_of f.(block_size)))
    else Raise StructError.
Proof. now rewrite footer_pack_eq. Qed.

(** X3. Re-encoding a decoded footer writes back the 12 bytes that were
    read: whenever [unpack] succeeds, its result is a valid footer, the
    stream is left after the twelfth byte, and [pack] of the result gives
    the first 12 bytes of the stream. *)
Theorem footer_reencode (stream rest : bytes) (f : TocFooter) :
  _toc_footer_serializer_unpack stream = Ok (f, rest) ->
  TocFooter_valid f = true /\
  rest = skipn 12 stream /\
  _toc_footer_serializer_pack [] f = Ok (12, firstn 12 stream).
Proof.
  rewrite footer_unpack_eq.
  destruct (Nat.ltb_spec (length stream) 12) as [H|H]; [discriminate|].
  intros [= <- <-].
  assert (Hv : TocFooter_valid
                 {| unk_a := PyInt (le_combine (slice 0 4 stream));
                    unk_b := PyInt (le_combine (slice 4 4 stream));
                    block_size := PyInt (le_combine (slice 8 4 stream)) |} = true).
  { unfold TocFooter_valid. cbn [unk_a unk_b block_size].
    rewrite !(fits_le_combine 4) by (apply length_slice; lia). reflexivity. }
  split; [exact Hv|]. split; [reflexivity|].
  rewrite footer_pack_eq, Hv. cbn [unk_a unk_b block_size int_of app].
  rewrite !le_split_combine_slice by lia.
  rewrite (slice_app 4 4 4 8) by reflexivity.
  rewrite (slice_app 0 4 8 4) by reflexivity. reflexivity.
Qed.

(** A footer read from twelve bytes followed by one more. *)
Lemma footer_reencode_witness :
  let stream := le_split 4 5 ++ le_split 4 0xFFFFFFFF ++ le_split 4 7 ++ [Byte.x2a] in
  let f := {| unk_a := PyInt 5; unk_b := PyInt 0xFFFFFFFF; block_size := PyInt 7 |} in
  _toc_footer_serializer_unpack stream = Ok (f, [Byte.x2a]) /\
  TocFooter_valid f = true /\
  [Byte.x2a] = skipn 12 stream /\
  _toc_footer_serializer_pack [] f = Ok (12, firstn 12 stream).
Proof.
  cbv zeta. split; [vm_compute; reflexivity|].
  apply (footer_reencode _ [Byte.x2a]). vm_compute. reflexivity.
Defined.

(** ** File entries *)

Section MoreFileDefFacts.

Context {StorageType VerificationType : Type}.
Context {StorageType_enum : IntEnum StorageType}.
Context {VerificationType_enum : IntEnum VerificationType}.

Lemma file_unpack_long (stream : bytes) :
  (30 <= length stream)%nat ->
  _file_serializer_unpack (StorageType := StorageType)
    (VerificationType := VerificationType) stream
  = match enum_call (E := StorageType) (Z.land (le_combine (slice 25 1 stream)) 0x0F),
          enum_call (E := EncryptionType)
            (Z.shiftr (Z.land (le_combine (slice 25 1 stream)) 0xF0) 4),
          enum_call (E := VerificationType) (le_combine (slice 24 1 stream)) with
    | Some st, Some en, Some vt =>
        Ok ({| name_pos := PyInt (le_combine (slice 0 4 stream));
               data_pos := PyInt (le_combine (slice 8 8 stream));
               length_on_disk := PyInt (le_combine (slice 20 4 stream));
               length_in_archive := PyInt (le_combine (slice 16 4 stream));
               storage_type := st;
               verification := vt;
               encryption := en;
               crc := PyInt (le_combine (slice 26 4 stream));
               hash_pos := PyInt (le_combine (slice 4 4 stream)) |},
            skipn 30 stream)
    | _, _, _ => Raise ValueError
    end.
Proof.
  intros Hl. unfold _file_serializer_unpack, FileDefSerializer.unpack.
  rewrite file_fields by exact Hl.
  cbn [mbind result_bind bind py_and py_rshift].
  change FileDefSerializer.STORAGE_MASK with 0x0F.
  change FileDefSerializer.ENCRYPTION_MASK with 0xF0.
  change FileDefSerializer.ENCRYPTION_SHIFT with 4.
  unfold enum_of.
  destruct (enum_call (E := StorageType) _); [|reflexivity]. cbn [mbind result_bind bind].
  destruct (enum_call (E := EncryptionType) _); [|reflexivity]. cbn [mbind result_bind bind].
  destruct (enum_call (E := VerificationType) _); reflexivity.
Qed.

Lemma file_unpack_short (stream : bytes) :
  (length stream < 30)%nat ->
  _file_serializer_unpack (StorageType := StorageType)
    (VerificationType := VerificationType) stream = Raise StructError.
Proof.
  intros H. unfold _file_serializer_unpack, FileDefSerializer.unpack.
  now rewrite unpack_stream_short by exact H.
Qed.

End MoreFileDefFacts.

Section FileDefExtras.

Context {StorageType VerificationType : Type}.
Context {StorageType_enum : IntEnum StorageType}.
Context {VerificationType_enum : IntEnum VerificationType}.

Lemma file_pack_eq (stream : bytes) (d : FileDef StorageType VerificationType) :
  _file_serializer_pack stream d
  = if FileDef_packable d
    then Ok (30, stream ++ le_split 4 (int_of d.(name_pos))
                        ++ le_split 4 (int_of d.(hash_pos))
                        ++ le_split 8 (int_of d.(data_pos))
                        ++ le_split 4 (int_of d.(length_in_archive))
                        ++ le_split 4 (int_of d.(length_on_disk))
                        ++ le_split 1 (enum_value d.(verification))
                        ++ le_split 1 (flags_of d)
                        ++ le_split 4 (int_of d.(crc)))
    else Raise StructError.
Proof.
  unfold _file_serializer_pack, FileDefSerializer.pack, pack_stream,
    FileDef_packable, _file_layout.
  change FileDefSerializer.ENCRYPTION_SHIFT with 4. fold (flags_of d).
  cbn [pack]. rewrite !pack_item_int_fits by discriminate.
  change (8 * Z.of_nat (code_size code_I)) with 32.
  change (8 * Z.of_nat (code_size code_Q)) with 64.
  change (8 * Z.of_nat (code_size code_B)) with 8. cbn [code_size int_of].
  destruct (fits 32 (name_pos d)); [|reflexivity]. cbn [mbind result_bind bind andb].
  destruct (fits 32 (hash_pos d)); [|reflexivity]. cbn [mbind result_bind bind andb].
  destruct (fits 64 (data_pos d)); [|reflexivity]. cbn [mbind result_bind bind andb].
  destruct (fits 32 (length_in_archive d)); [|reflexivity]. cbn [mbind result_bind bind andb].
  destruct (fits 32 (length_on_disk d)); [|reflexivity]. cbn [mbind result_bind bind andb].
  destruct (fits 8 (PyInt (enum_value (verification d)))); [|reflexivity].
  cbn [mbind result_bind bind andb].
  destruct (fits 8 (PyInt (flags_of d))); [|reflexivity]. cbn [mbind result_bind bind andb].
  destruct (fits 32 (crc d)); [|reflexivity]. cbn [mbind result_bind bind andb].
  rewrite app_nil_r, !length_app, !length_le_split. reflexivity.
Qed.

Lemma file_unpack_eq (stream : bytes) :
  _file_serializer_unpack (StorageType := StorageType)
    (VerificationType := VerificationType) stream
  = if (length stream <? 30)%nat then Raise StructError
    else
      match enum_call (E := StorageType) (Z.land (le_combine (slice 25 1 stream)) 0x0F),
            enum_call (E := EncryptionType)
              (Z.shiftr (Z.land (le_combine (slice 25 1 stream)) 0xF0) 4),
            enum_call (E := VerificationType) (le_combine (slice 24 1 stream)) with
      | Some st, Some en, Some vt =>
          Ok ({| name_pos := PyInt (le_combine (slice 0 4 stream));
                 data_pos := PyInt (le_combine (slice 8 8 stream));
                 length_on_disk := PyInt (le_combine (slice 20 4 stream));
                 length_in_archive := PyInt (le_combine (slice 16 4 stream));
                 storage_type := st;
                 verification := vt;
                 encryption := en;
                 crc := PyInt (le_combine (slice 26 4 stream));
                 hash_pos := PyInt (le_combine (slice 4 4 stream)) |},
              skipn 30 stream)
      | _, _, _ => Raise ValueError
      end.
Proof.
  destruct (Nat.ltb_spec (length stream) 30) as [H|H].
  - now apply file_unpack_short.
  - now apply file_unpack_long.
Qed.

(** A decoded entry is valid, and packing it gives the bytes read. *)
Lemma file_unpack_inv (stream rest : bytes) (d : FileDef StorageType VerificationType) :
  _file_serializer_unpack stream = Ok (d, rest) ->
  FileDef_valid d = true /\ FileDef_packable d = true /\
  rest = skipn 30 stream /\
  _file_serializer_pack [] d = Ok (30, firstn 30 stream).
Proof.
  rewrite file_unpack_eq.
  destruct (Nat.ltb_spec (length stream) 30) as [H|H]; [discriminate|].
  assert (Hb : exists b, slice 25 1 stream = [b]).
  { pose proof (length_slice 25 1 stream ltac:(lia)) as Hl.
    destruct (slice 25 1 stream) as [|b [|? ?]]; try discriminate. now exists b. }
  destruct Hb as [b Hb]. rewrite Hb, le_combine_byte.
  destruct (enum_call (E := StorageType) _) as [st|] eqn:Hst; [|discriminate].
  destruct (enum_call (E := EncryptionType) _) as [en|] eqn:Hen; [|discriminate].
  destruct (enum_call (E := VerificationType) _) as [vt|] eqn:Hvt; [|discriminate].
  intros [= <- <-].
  apply enum_value_call in Hst, Hvt.
  apply (enum_value_call (E := EncryptionType)) in Hen.
  set (d := Build_FileDef _ _ _ _ _ _ _ _ _ _ _).
  assert (Hflags : flags_of d = byte.unsigned b).
  { unfold flags_of, d. cbn [encryption storage_type]. rewrite Hen, Hst. apply flags_join. }
  assert (Hp : FileDef_packable d = true).
  { unfold FileDef_packable. rewrite Hflags. unfold d.
    cbn [name_pos hash_pos data_pos length_in_archive length_on_disk verification crc].
    rewrite Hvt.
    rewrite !(fits_le_combine 4), (fits_le_combine 8), (fits_le_combine 1)
      by (apply length_slice; lia).
    now rewrite fits_byte. }
  assert (Hv : FileDef_valid d = true).
  { unfold FileDef_valid, d.
    cbn [name_pos hash_pos data_pos length_in_archive length_on_disk verification crc
         storage_type].
    rewrite Hvt, Hst.
    rewrite !(fits_le_combine 4), (fits_le_combine 8), (fits_le_combine 1)
      by (apply length_slice; lia).
    now rewrite fits_low_nibble. }
  split; [exact Hv|]. split; [exact Hp|]. split; [reflexivity|].
  rewrite file_pack_eq, Hp, Hflags. unfold d.
  cbn [name_pos hash_pos data_pos length_in_archive length_on_disk verification crc
       int_of app].
  rewrite Hvt, <- le_combine_byte, <- Hb.
  rewrite !le_split_combine_slice by lia.
  rewrite (slice_app 25 1 4 26) by reflexivity.
  rewrite (slice_app 24 1 5 25) by reflexivity.
  rewrite (slice_app 20 4 6 24) by reflexivity.
  rewrite (slice_app 16 4 10 20) by reflexivity.
  rewrite (slice_app 8 8 14 16) by reflexivity.
  rewrite (slice_app 4 4 22 8) by reflexivity.
  rewrite (slice_app 0 4 26 4) by reflexivity. reflexivity.
Qed.

(** Packing onto a stream appends what packing onto an empty one writes. *)
Lemma file_pack_prefix (stream : bytes) (d : FileDef StorageType VerificationType)
  (n : Z) (buf : bytes) :
  _file_serializer_pack [] d = Ok (n, buf) ->
  _file_serializer_pack stream d = Ok (n, stream ++ buf).
Proof.
  unfold _file_serializer_pack, FileDefSerializer.pack, pack_stream.
  match goal with
  | |- context [pack ?l ?a] => destruct (pack l a) as [x|]; [|discriminate]
  end.
  cbn [mbind result_bind bind app]. now intros [= <- <-].
Qed.

End FileDefExtras.

(** X4. [FileDefSerializer.unpack] has three outcomes.  A stream shorter
    than 30 bytes is a [struct.error].  Otherwise the entry is read from the
    first 30 bytes: when the low nibble of byte 25, its high nibble and
    byte 24 are members of the storage, encryption and verification
    enumerations the entry is returned, with the integers at offsets 0, 4,
    8, 16, 20 and 26 as name_pos, hash_pos, data_pos, length_in_archive,
    length_on_disk and crc, and the stream is left after byte 30; when any
    of the three is no member the error is [ValueError]. *)
Theorem file_decode {StorageType VerificationType : Type}
  {StorageType_enum : IntEnum StorageType}
  {VerificationType_enum : IntEnum VerificationType} (stream : bytes) :
  _file_serializer_unpack (StorageType := StorageType)
    (VerificationType := VerificationType) stream
  = if (length stream <? 30)%nat then Raise StructError
    else
      match enum_call (E := StorageType) (Z.land (le_combine (slice 25 1 stream)) 0x0F),
            enum_call (E := EncryptionType)
              (Z.shiftr (Z.land (le_combine (slice 25 1 stream)) 0xF0) 4),
            enum_call (E := VerificationType) (le_combine (slice 24 1 stream)) with
      | Some st, Some en, Some vt =>
          Ok ({| name_pos := PyInt (le_combine (slice 0 4 stream));
                 data_pos := PyInt (le_combine (slice 8 8 stream));
                 length_on_disk := PyInt (le_combine (slice 20 4 stream));
                 length_in_archive := PyInt (le_combine (slice 16 4 stream));
                 storage_type := st;
                 verification := vt;
                 encryption := en;
                 crc := PyInt (le_combine (slice 26 4 stream));
                 hash_pos := PyInt (le_combine (slice 4 4 stream)) |},
              skipn 30 stream)
      | _, _, _ => Raise ValueError
      end.
Proof. apply file_unpack_eq. Qed.

(** X5. On a fresh stream [FileDefSerializer.pack] returns 30 and writes
    exactly 30 bytes when the six integer fields fit their slots and the
    verification tag and the flags value [(encryption << 4) | storage] fit
    a byte: name_pos, hash_pos, data_pos (8 bytes), length_in_archive,
    length_on_disk, the verification byte, the flags byte and crc,
    little-endian, in this order.  Otherwise it raises [struct.error]. *)
Theorem file_pack_spec {StorageType VerificationType : Type}
  {StorageType_enum : IntEnum StorageType}
  {VerificationType_enum : IntEnum VerificationType}
  (d : FileDef StorageType VerificationType) :
  _file_serializer_pack [] d
  = if FileDef_packable d
    then Ok (30, le_split 4 (int_of d.(name_pos))
                   ++ le_split 4 (int_of d.(hash_pos))
                   ++ le_split 8 (int_of d.(data_pos))
                   ++ le_split 4 (int_of d.(length_in_archive))
                   ++ le_split 4 (int_of d.(length_on_disk))
                   ++ le_split 1 (enum_value d.(verification))
                   ++ le_split 1 (flags_of d)
                   ++ le_split 4 (int_of d.(crc)))
    else Raise StructError.
Proof. now rewrite file_pack_eq. Qed.

(** X6. Re-encoding a decoded file entry writes back the 30 bytes that were
    read: whenever [unpack] succeeds, its result is a valid entry, the
    stream is left after byte 30, and [pack] of the result gives the first
    30 bytes of the stream. *)
Theorem file_reencode {StorageType VerificationType : Type}
  {StorageType_enum : IntEnum StorageType}
  {VerificationType_enum : IntEnum VerificationType}
  (stream rest : bytes) (d : FileDef StorageType VerificationType) :
  _file_serializer_unpack stream = Ok (d, rest) ->
  FileDef_valid d = true /\
  rest = skipn 30 stream /\
  _file_serializer_pack [] d = Ok (30, firstn 30 stream).
Proof.
  intros H. apply file_unpack_inv in H as (Hv & _ & Hr & Hp). now repeat split.
Qed.

(** The scenario buffer followed by two more bytes. *)
Lemma file_reencode_witness :
  let stream := scenario_buffer ++ [Byte.x01; Byte.x02] in
  let d := (the (_file_serializer_unpack
                   (StorageType_enum := CoreDefinitions.StorageType_enum)
                   (VerificationType_enum := CoreDefinitions.VerificationType_enum)
                   stream)).1 in
  _file_serializer_unpack stream = Ok (d, [Byte.x01; Byte.x02]) /\
  FileDef_valid d = true /\
  [Byte.x01; Byte.x02] = skipn 30 stream /\
  _file_serializer_pack [] d = Ok (30, firstn 30 stream).
Proof.
  cbv zeta. split; [vm_compute; reflexivity|].
  apply (file_reencode (StorageType_enum := CoreDefinitions.StorageType_enum)
           (VerificationType_enum := CoreDefinitions.VerificationType_enum)
           _ [Byte.x01; Byte.x02]).
  vm_compute. reflexivity.
Defined.

(** X7. File entries written one after the other are read one after the
    other: packing two valid entries in sequence writes 60 bytes, and two
    successive [unpack] calls on these bytes return the first entry, then
    the second, and leave the stream where the bytes end. *)
Theorem file_sequence {StorageType VerificationType : Type}
  {StorageType_enum : IntEnum StorageType}
  {VerificationType_enum : IntEnum VerificationType}
  (d1 d2 : FileDef StorageType VerificationType) :
  FileDef_valid d1 = true -> FileDef_valid d2 = true ->
  exists out,
    ('(_, s1) ← _file_serializer_pack [] d1; _file_serializer_pack s1 d2) = Ok (30, out) /\
    length out = 60%nat /\
    forall rest,
      ('(a, r1) ← _file_serializer_unpack (out ++ rest);
       '(b, r2) ← _file_serializer_unpack r1;
       Ok (a, b, r2)) = Ok (d1, d2, rest).
Proof.
  intros H1 H2.
  destruct (file_roundtrip d1 H1) as (b1 & Hp1 & Hu1).
  destruct (file_roundtrip d2 H2) as (b2 & Hp2 & Hu2).
  pose proof Hp1 as Hl1. apply file_pack_inv in Hl1 as (x1 & _ & _ & E1 & Hl1).
  pose proof Hp2 as Hl2. apply file_pack_inv in Hl2 as (x2 & _ & _ & E2 & Hl2).
  cbn [app] in E1, E2. subst x1 x2.
  exists (b1 ++ b2). split; [|split].
  - rewrite Hp1. cbn [mbind result_bind bind].
    now apply file_pack_prefix.
  - rewrite length_app. lia.
  - intros rest. rewrite <- app_assoc, Hu1. cbn [mbind result_bind bind].
    rewrite Hu2. reflexivity.
Qed.

(** Two sample entries in sequence. *)
Lemma file_sequence_witness :
  FileDef_valid (StorageType_enum := CoreDefinitions.StorageType_enum)
    (VerificationType_enum := CoreDefinitions.VerificationType_enum) sample_file = true /\
  exists out,
    ('(_, s1) ← _file_serializer_pack
                  (StorageType_enum := CoreDefinitions.StorageType_enum)
                  (VerificationType_enum := CoreDefinitions.VerificationType_enum)
                  [] sample_file;
     _file_serializer_pack s1 sample_file) = Ok (30, out) /\
    length out = 60%nat.
Proof.
  split; [vm_compute; reflexivity|].
  destruct (file_sequence (StorageType_enum := CoreDefinitions.StorageType_enum)
              (VerificationType_enum := CoreDefinitions.VerificationType_enum)
              sample_file sample_file) as (out & Hp & Hl & _);
    try (vm_compute; reflexivity).
  exists out. split; [exact Hp | exact Hl].
Defined.

(** ** Metadata dictionaries, read back *)

Ltac in_keys H :=
  repeat (apply elem_of_cons in H as [->|H]);
  [..|now apply not_elem_of_nil in H].

Ltac notin_keys H :=
  repeat match type of H with
         | _ ∉ _ :: _ => apply not_elem_of_cons in H as [? H]
         end.

Lemma enum_of_inv {E : Type} `{IntEnum E} (o : object) (e : E) :
  enum_of o = Ok e -> exists v, o = PyInt v /\ enum_call v = Some e.
Proof.
  unfold enum_of. destruct o as [|v| |]; try discriminate.
  destruct (enum_call v) as [e'|] eqn:Hv; [|discriminate].
  intros [= <-]. now exists v.
Qed.


Lemma getitem_inv (d : gmap string object) (k : string) (v : object) :
  getitem d k = Ok v -> d !! k = Some v.
Proof. unfold getitem. destruct (d !! k); [now intros [= <-]|discriminate]. Qed.

Lemma getitem_raise (d : gmap string object) (k : string) (e : exn) :
  getitem d k = Raise e -> d !! k = None /\ e = KeyError k.
Proof. unfold getitem. destruct (d !! k); [discriminate|now intros [= <-]]. Qed.

Section FileMetadataFacts.

Context {StorageType VerificationType : Type}.
Context {StorageType_enum : IntEnum StorageType}.
Context {VerificationType_enum : IntEnum VerificationType}.

(** What a successful [meta2def] read. *)
Lemma meta2def_inv (meta : gmap string object) (d : FileDef StorageType VerificationType) :
  meta2def meta = Ok d ->
  meta !! "verification_type" = Some (PyInt (enum_value d.(verification))) /\
  meta !! "encryption_type" = Some (PyInt (enum_value d.(encryption))) /\
  meta !! "storage_type" = Some (PyInt (enum_value d.(storage_type))) /\
  meta !! "hash_pos" = Some d.(hash_pos) /\
  meta !! "crc" = Some d.(crc) /\
  d.(name_pos) = PyNone /\ d.(data_pos) = PyNone /\
  d.(length_on_disk) = PyNone /\ d.(length_in_archive) = PyNone.
Proof.
  unfold meta2def.
  destruct (getitem meta "verification_type") as [v|] eqn:Hv; [|discriminate].
  cbn [mbind result_bind bind].
  destruct (enum_of (E := VerificationType) v) as [vt|] eqn:Hvt; [|discriminate].
  cbn [mbind result_bind bind].
  destruct (getitem meta "encryption_type") as [e|] eqn:He; [|discriminate].
  cbn [mbind result_bind bind].
  destruct (enum_of (E := EncryptionType) e) as [en|] eqn:Hen; [|discriminate].
  cbn [mbind result_bind bind].
  destruct (getitem meta "storage_type") as [s|] eqn:Hs; [|discriminate].
  cbn [mbind result_bind bind].
  destruct (enum_of (E := StorageType) s) as [st|] eqn:Hst; [|discriminate].
  cbn [mbind result_bind bind].
  destruct (getitem meta "hash_pos") as [hp|] eqn:Hhp; [|discriminate].
  cbn [mbind result_bind bind].
  destruct (getitem meta "crc") as [c|] eqn:Hc; [|discriminate].
  cbn [mbind result_bind bind]. intros [= <-].
  apply getitem_inv in Hv, He, Hs, Hhp, Hc.
  apply enum_of_inv in Hvt as (zv & -> & Hvt), Hen as (ze & -> & Hen),
    Hst as (zs & -> & Hst).
  apply enum_value_call in Hvt, Hst.
  apply (enum_value_call (E := EncryptionType)) in Hen.
  cbn [verification encryption storage_type hash_pos crc name_pos data_pos
       length_on_disk length_in_archive].
  rewrite Hvt, Hen, Hst. now repeat split.
Qed.


End FileMetadataFacts.

(** What a successful [disassemble_meta] read. *)
Lemma disassemble_meta_inv (io : BinaryIO) (metadata : gmap string object)
  (m : MetaBlock) (f : TocFooter) :
  disassemble_meta io metadata = Ok (m, f) ->
  exists s h,
    metadata !! "sha_256" = Some (PyStr s) /\ Codec.fromhex s = Ok h /\
    m = {| name := PyNone; ptrs := None; sha_256 := PyBytes h |} /\
    metadata !! "unk_a" = Some f.(unk_a) /\
    metadata !! "unk_b" = Some f.(unk_b) /\
    metadata !! "block_size" = Some f.(block_size).
Proof.
  unfold disassemble_meta.
  destruct (getitem metadata "sha_256") as [o|] eqn:Ho; [|discriminate].
  cbn [mbind result_bind bind].
  destruct o as [| |s|]; try discriminate. cbn [py_fromhex].
  destruct (Codec.fromhex s) as [h|] eqn:Hh; [|discriminate].
  cbn [mbind result_bind bind].
  destruct (getitem metadata "unk_a") as [a|] eqn:Ha; [|discriminate].
  cbn [mbind result_bind bind].
  destruct (getitem metadata "unk_b") as [b|] eqn:Hb; [|discriminate].
  cbn [mbind result_bind bind].
  destruct (getitem metadata "block_size") as [c|] eqn:Hc; [|discriminate].
  cbn [mbind result_bind bind]. intros [= <- <-].
  apply getitem_inv in Ho, Ha, Hb, Hc. exists s, h. now repeat split.
Qed.

(** X8. [def2meta] gives back what [meta2def] read: when [meta2def]
    succeeds on a dictionary, [def2meta] of its result holds, under each of
    the five keys, the value the dictionary holds; the four positional
    fields of the result are [None]. *)
Theorem meta2def_reverse {StorageType VerificationType : Type}
  {StorageType_enum : IntEnum StorageType}
  {VerificationType_enum : IntEnum VerificationType}
  (meta : gmap string object) (d : FileDef StorageType VerificationType) :
  meta2def meta = Ok d ->
  (forall k, k ∈ file_meta_keys -> def2meta d !! k = meta !! k) /\
  d.(name_pos) = PyNone /\ d.(data_pos) = PyNone /\
  d.(length_on_disk) = PyNone /\ d.(length_in_archive) = PyNone.
Proof.
  intros H. apply meta2def_inv in H as (Hv & He & Hs & Hh & Hc & Hn).
  split; [|exact Hn].
  intros k Hk. unfold file_meta_keys in Hk. unfold def2meta.
  in_keys Hk; repeat first [ rewrite lookup_insert_eq
                           | rewrite lookup_insert_ne by discriminate ]; congruence.
Qed.

(** The metadata of [sample_file], with one more key. *)
Lemma meta2def_reverse_witness :
  let meta := <["modified" := PyInt 1700000000]> (def2meta sample_file) in
  let d := {| name_pos := PyNone; data_pos := PyNone;
              length_on_disk := PyNone; length_in_archive := PyNone;
              storage_type := CoreDefinitions.STREAM_COMPRESS;
              verification := CoreDefinitions.SHA1_BLOCKS;
              encryption := AES128;
              crc := PyInt 0xFFFFFFFF;
              hash_pos := PyInt 3 |} in
  meta2def meta = Ok d /\
  forall k, k ∈ file_meta_keys -> def2meta d !! k = meta !! k.
Proof.
  cbv zeta. split; [vm_compute; reflexivity|].
  refine (proj1 (meta2def_reverse _ _ _)). vm_compute. reflexivity.
Defined.

(** X9. [meta2def] looks at its five keys only: setting any other key of
    the dictionary changes neither its result nor its error. *)
Theorem meta2def_extra_keys {StorageType VerificationType : Type}
  {StorageType_enum : IntEnum StorageType}
  {VerificationType_enum : IntEnum VerificationType}
  (meta : gmap string object) (k : string) (v : object) :
  k ∉ file_meta_keys ->
  meta2def (StorageType := StorageType) (VerificationType := VerificationType)
    (<[k := v]> meta)
  = meta2def meta.
Proof.
  intros Hk. unfold file_meta_keys in Hk. notin_keys Hk.
  unfold meta2def, getitem. now rewrite !lookup_insert_ne by assumption.
Qed.

Lemma meta2def_extra_keys_witness :
  ("modified" ∉ file_meta_keys) /\
  meta2def (StorageType := CoreDefinitions.StorageType)
    (VerificationType := CoreDefinitions.VerificationType)
    (<["modified" := PyInt 1700000000]> (def2meta sample_file))
  = meta2def (def2meta sample_file).
Proof.
  assert (H : "modified" ∉ file_meta_keys).
  { unfold file_meta_keys. intros H.
    repeat (apply elem_of_cons in H as [H|H]; [discriminate|]).
    now apply not_elem_of_nil in H. }
  split; [exact H|]. now apply meta2def_extra_keys.
Defined.



(** X11. An entry built by [meta2def] cannot be written as it is: its four
    positional fields are [None], and [FileDefSerializer.pack] raises
    [struct.error] on it, on any stream. *)
Theorem meta_entry_not_packable {StorageType VerificationType : Type}
  {StorageType_enum : IntEnum StorageType}
  {VerificationType_enum : IntEnum VerificationType}
  (meta : gmap string object) (d : FileDef StorageType VerificationType)
  (stream : bytes) :
  meta2def meta = Ok d ->
  _file_serializer_pack stream d = Raise StructError.
Proof.
  intros H. apply meta2def_inv in H as (_ & _ & _ & _ & _ & Hn & _).
  rewrite file_pack_eq. unfold FileDef_packable. now rewrite Hn.
Qed.

Lemma meta_entry_not_packable_witness :
  exists d,
    meta2def (StorageType := CoreDefinitions.StorageType)
      (VerificationType := CoreDefinitions.VerificationType)
      (def2meta sample_file) = Ok d /\
    _file_serializer_pack [] d = Raise StructError.
Proof.
  eexists. split; [vm_compute; reflexivity|].
  apply (meta_entry_not_packable (def2meta sample_file)). vm_compute. reflexivity.
Defined.

(** X12. [assemble_meta] gives back what [disassemble_meta] read: when
    [disassemble_meta] succeeds on a dictionary, [assemble_meta] of its
    results succeeds, holds the same unk_a, unk_b and block_size, holds the
    hash as the hexadecimal text of the bytes read, and [disassemble_meta]
    of that dictionary returns the same results again. *)
Theorem disassemble_reverse (io io' : BinaryIO) (metadata : gmap string object)
  (m : MetaBlock) (f : TocFooter) :
  disassemble_meta io metadata = Ok (m, f) ->
  exists metadata' h,
    assemble_meta io' m f = Ok metadata' /\
    m.(sha_256) = PyBytes h /\
    metadata' !! "sha_256" = Some (PyStr (Codec.hex h)) /\
    (forall k, k ∈ ["unk_a"; "unk_b"; "block_size"] -> metadata' !! k = metadata !! k) /\
    disassemble_meta io metadata' = Ok (m, f).
Proof.
  intros H. apply disassemble_meta_inv in H as (s & h & _ & _ & -> & Ha & Hb & Hc).
  unfold assemble_meta. cbn [sha_256 py_hex mbind result_bind bind].
  eexists. exists h. split; [reflexivity|]. split; [reflexivity|].
  split; [now rewrite lookup_insert_eq|]. split.
  - intros k Hk.
    in_keys Hk; repeat first [ rewrite lookup_insert_eq
                             | rewrite lookup_insert_ne by discriminate ]; congruence.
  - unfold disassemble_meta. dict_lookup. cbn [mbind result_bind bind py_fromhex].
    rewrite fromhex_hex. cbn [mbind result_bind bind]. now destruct f.
Qed.

(** A dictionary whose hash text is upper-case with a space. *)
Lemma disassemble_reverse_witness :
  let metadata : gmap string object :=
    <["sha_256" := PyStr (str_lit "AB 01")]>
    (<["unk_a" := PyInt 1]> (<["unk_b" := PyInt 2]> (<["block_size" := PyInt 3]> ∅))) in
  disassemble_meta [] metadata
  = Ok ({| name := PyNone; ptrs := None; sha_256 := PyBytes [Byte.xab; Byte.x01] |},
        {| unk_a := PyInt 1; unk_b := PyInt 2; block_size := PyInt 3 |}) /\
  exists metadata' h,
    assemble_meta [] {| name := PyNone; ptrs := None;
                        sha_256 := PyBytes [Byte.xab; Byte.x01] |}
      {| unk_a := PyInt 1; unk_b := PyInt 2; block_size := PyInt 3 |} = Ok metadata' /\
    PyBytes [Byte.xab; Byte.x01] = PyBytes h /\
    metadata' !! "sha_256" = Some (PyStr (Codec.hex h)).
Proof.
  cbv zeta. split; [vm_compute; reflexivity|].
  destruct (disassemble_reverse [] []
              (<["sha_256" := PyStr (str_lit "AB 01")]>
               (<["unk_a" := PyInt 1]> (<["unk_b" := PyInt 2]>
               (<["block_size" := PyInt 3]> ∅))))
              {| name := PyNone; ptrs := None; sha_256 := PyBytes [Byte.xab; Byte.x01] |}
              {| unk_a := PyInt 1; unk_b := PyInt 2; block_size := PyInt 3 |})
    as (md & h & H1 & H2 & H3 & _); [vm_compute; reflexivity|].
  exists md, h. split; [exact H1|]. split; [exact H2 | exact H3].
Defined.

(** X13. [disassemble_meta] fails in three ways only: with [KeyError]
    naming one of its four keys, which the dictionary then lacks; with
    [TypeError], when the hash is no text; with [ValueError], when the hash
    text is no hexadecimal. *)
Theorem disassemble_errors (io : BinaryIO) (metadata : gmap string object) (e : exn) :
  disassemble_meta io metadata = Raise e ->
  (exists k, k ∈ archive_meta_keys /\ metadata !! k = None /\ e = KeyError k) \/
  (exists o, metadata !! "sha_256" = Some o /\ (forall s, o <> PyStr s) /\ e = TypeError) \/
  (exists s, metadata !! "sha_256" = Some (PyStr s) /\
             Codec.fromhex s = Raise ValueError /\ e = ValueError).
Proof.
  unfold disassemble_meta, archive_meta_keys.
  destruct (getitem metadata "sha_256") as [o|] eqn:Ho; cbn [mbind result_bind bind].
  2:{ intros [= <-]. apply getitem_raise in Ho as [Ho ->]. left. eexists.
      split; [|split; [exact Ho|reflexivity]]. set_solver. }
  apply getitem_inv in Ho.
  destruct (py_fromhex o) as [h|x] eqn:Hh; cbn [mbind result_bind bind].
  2:{ intros [= <-]. right.
      destruct o as [| |s|]; cbn [py_fromhex] in Hh.
      1,2,4: left; eexists; split; [exact Ho|]; split; [discriminate|congruence].
      right. exists s. pose proof (fromhex_raise _ _ Hh) as ->. now repeat split. }
  destruct (getitem metadata "unk_a") as [a|] eqn:Ha; cbn [mbind result_bind bind].
  2:{ intros [= <-]. apply getitem_raise in Ha as [Ha ->]. left. eexists.
      split; [|split; [exact Ha|reflexivity]]. set_solver. }
  destruct (getitem metadata "unk_b") as [b|] eqn:Hb; cbn [mbind result_bind bind].
  2:{ intros [= <-]. apply getitem_raise in Hb as [Hb ->]. left. eexists.
      split; [|split; [exact Hb|reflexivity]]. set_solver. }
  destruct (getitem metadata "block_size") as [c|] eqn:Hc; cbn [mbind result_bind bind];
    [discriminate|].
  intros [= <-]. apply getitem_raise in Hc as [Hc ->]. left. eexists.
  split; [|split; [exact Hc|reflexivity]]. set_solver.
Qed.

(** A dictionary whose hash is an integer. *)
Lemma disassemble_errors_witness :
  let metadata : gmap string object := <["sha_256" := PyInt 5]> ∅ in
  disassemble_meta [] metadata = Raise TypeError /\
  ((exists k, k ∈ archive_meta_keys /\ metadata !! k = None /\ TypeError = KeyError k) \/
   (exists o, metadata !! "sha_256" = Some o /\ (forall s, o <> PyStr s)
              /\ TypeError = TypeError) \/
   (exists s, metadata !! "sha_256" = Some (PyStr s) /\
              Codec.fromhex s = Raise ValueError /\ TypeError = ValueError)).
Proof.
  cbv zeta. split; [vm_compute; reflexivity|].
  apply (disassemble_errors []). vm_compute. reflexivity.
Defined.

(** X14. A header built by [disassemble_meta] cannot be written as it is:
    its name and pointers are [None], and [ArchiveHeaderSerializer.pack]
    raises [AttributeError] on it, on any stream. *)
Theorem disassembled_header_not_packable (io stream : BinaryIO)
  (metadata : gmap string object) (m : MetaBlock) (f : TocFooter) :
  disassemble_meta io metadata = Ok (m, f) ->
  m.(name) = PyNone /\ m.(ptrs) = None /\
  _meta_header_serializer_pack stream m = Raise AttributeError.
Proof.
  intros H. apply disassemble_meta_inv in H as (s & h & _ & _ & -> & _).
  now repeat split.
Qed.

Lemma disassembled_header_not_packable_witness :
  exists m f,
    (md ← assemble_meta [] MetaBlock_default sample_footer; disassemble_meta [] md)
    = Ok (m, f) /\
    _meta_header_serializer_pack [] m = Raise AttributeError.
Proof.
  eexists. eexists. split; [vm_compute; reflexivity|].
  refine (proj2 (proj2 (disassembled_header_not_packable []  []
                          (the (assemble_meta [] MetaBlock_default sample_footer))
                          _ _ _))).
  vm_compute. reflexivity.
Defined.

(** X15. [disassemble_meta] looks at its four keys only: setting any other
    key of the dictionary changes neither its result nor its error. *)
Theorem disassemble_extra_keys (io : BinaryIO) (metadata : gmap string object)
  (k : string) (v : object) :
  k ∉ archive_meta_keys ->
  disassemble_meta io (<[k := v]> metadata) = disassemble_meta io metadata.
Proof.
  intros Hk. unfold archive_meta_keys in Hk. notin_keys Hk.
  unfold disassemble_meta, getitem. now rewrite !lookup_insert_ne by assumption.
Qed.

Lemma disassemble_extra_keys_witness :
  ("name" ∉ archive_meta_keys) /\
  disassemble_meta [] (<["name" := PyNone]> ∅) = disassemble_meta [] ∅.
Proof.
  assert (H : "name" ∉ archive_meta_keys).
  { unfold archive_meta_keys. intros H.
    repeat (apply elem_of_cons in H as [H|H]; [discriminate|]).
    now apply not_elem_of_nil in H. }
  split; [exact H|]. now apply disassemble_extra_keys.
Defined.

(** ** The header *)

(** The only error of [encode] is [UnicodeEncodeError]. *)
Lemma encode_raise (s : str) (e : exn) : Codec.encode s = Raise e -> e = UnicodeEncodeError.
Proof.
  induction s as [|c s IH]; [discriminate|]. cbn [Codec.encode].
  destruct (Codec.encode_char c) eqn:Hc; cbn [mbind result_bind bind].
  - destruct (Codec.encode s); cbn [mbind result_bind bind]; [discriminate|].
    intros [= <-]. now apply IH.
  - intros [= <-]. revert Hc. unfold Codec.encode_char.
    destruct (_ || _); [now intros [= <-]|].
    destruct (_ && _); [now intros [= <-]|].
    destruct (_ <? _); discriminate.
Qed.

Lemma header_unpack_eq (stream : bytes) :
  _meta_header_serializer_unpack stream
  = if (length stream <? 416)%nat then Raise StructError
    else
      match Codec.decode (slice 0 128 stream) with
      | Raise _ => Raise UnicodeDecodeError
      | Ok t =>
          if bool_decide (reserved_fields stream = (PyInt 0, PyInt 1)) then
            Ok ({| name := PyStr (Codec.rstrip [0] t);
                   ptrs := Some (ArchivePtrs.Build_t
                                   (PyInt (le_combine (slice 128 8 stream)))
                                   (PyInt (le_combine (slice 136 4 stream)))
                                   (PyInt (le_combine (slice 140 8 stream)))
                                   (PyInt (le_combine (slice 148 4 stream))));
                   sha_256 := PyBytes (slice 160 256 stream) |}, skipn 416 stream)
          else
            Raise (MismatchError "Reserved Flags" (reserved_fields stream)
                     (PyInt 0, PyInt 1))
      end.
Proof.
  destruct (Nat.ltb_spec (length stream) 416) as [H|H].
  - now apply header_unpack_short.
  - rewrite header_unpack_long by exact H.
    destruct (Codec.decode (slice 0 128 stream)) as [t|e] eqn:Ht;
      cbn [mbind result_bind bind].
    + destruct (decide (reserved_fields stream = (PyInt 0, PyInt 1))) as [Hr|Hr].
      * rewrite (bool_decide_eq_true_2 _ Hr).
        now rewrite bool_decide_eq_false_2 by (intros Hn; now apply Hn).
      * rewrite (bool_decide_eq_false_2 _ Hr).
        now rewrite bool_decide_eq_true_2 by exact Hr.
    + now rewrite (decode_raise _ _ Ht).
Qed.

Lemma header_pack_eq (stream : bytes) (m : MetaBlock) :
  _meta_header_serializer_pack stream m
  = match m.(name) with
    | PyStr s =>
        match Codec.encode s with
        | Raise _ => Raise UnicodeEncodeError
        | Ok b =>
            match m.(ptrs) with
            | None => Raise AttributeError
            | Some p =>
                match m.(sha_256) with
                | PyBytes h =>
                    if ArchivePtrs_fit p
                    then Ok (416, stream ++ header_bytes b p h)
                    else Raise StructError
                | _ => Raise StructError
                end
            end
        end
    | _ => Raise AttributeError
    end.
Proof.
  unfold _meta_header_serializer_pack, ArchiveHeaderSerializer.pack.
  destruct m as [nm pt sh]. cbn [name ptrs sha_256].
  destruct nm as [| |s|]; try reflexivity. cbn [py_encode].
  destruct (Codec.encode s) as [b|e] eqn:Hb; cbn [mbind result_bind bind].
  2:{ now rewrite (encode_raise _ _ Hb). }
  destruct pt as [[hp hs dp ds]|]; [|reflexivity]. cbn [mbind result_bind bind].
  unfold pack_stream, _meta_header_layout, ArchivePtrs_fit, header_bytes, pad.
  cbn [ArchivePtrs.header_pos ArchivePtrs.header_size
       ArchivePtrs.data_pos ArchivePtrs.data_size].
  change ArchiveHeaderSerializer.RSV_0 with 0. change ArchiveHeaderSerializer.RSV_1 with 1.
  cbn [pack].
  rewrite !(pack_item_int_fits code_Q), !(pack_item_int_fits code_I) by discriminate.
  change (8 * Z.of_nat (code_size code_I)) with 32.
  change (8 * Z.of_nat (code_size code_Q)) with 64.
  change (fits 32 (PyInt 0)) with true. change (fits 32 (PyInt 1)) with true.
  cbn [pack_item code_size int_of mbind result_bind bind].
  destruct (fits 64 hp); cbn [mbind result_bind bind andb];
    [|now destruct sh].
  destruct (fits 32 hs); cbn [mbind result_bind bind andb];
    [|now destruct sh].
  destruct (fits 64 dp); cbn [mbind result_bind bind andb];
    [|now destruct sh].
  destruct (fits 32 ds); cbn [mbind result_bind bind andb];
    [|now destruct sh].
  destruct sh as [| | |h]; try reflexivity. cbn [mbind result_bind bind].
  rewrite app_nil_r. f_equal. f_equal.
  rewrite !length_app, !length_le_split, !length_take, !repeat_length. lia.
Qed.

(** X16. [ArchiveHeaderSerializer.unpack] has four outcomes, tried in this
    order.  A stream shorter than 416 bytes is a [struct.error].  A name
    field (the first 128 bytes) that is not well-formed UTF-16-LE is a
    [UnicodeDecodeError], whatever the reserved fields hold.  Reserved
    fields other than (0, 1) are a mismatch error carrying the pair read and
    (0, 1).  Otherwise the header is returned: the decoded name without its
    trailing NULs, the four pointers at offsets 128, 136, 140 and 148, the
    256 bytes at offset 160 as the hash, and the stream is left after byte
    416. *)
Theorem header_decode (stream : bytes) :
  _meta_header_serializer_unpack stream
  = if (length stream <? 416)%nat then Raise StructError
    else
      match Codec.decode (slice 0 128 stream) with
      | Raise _ => Raise UnicodeDecodeError
      | Ok t =>
          if bool_decide (reserved_fields stream = (PyInt 0, PyInt 1)) then
            Ok ({| name := PyStr (Codec.rstrip [0] t);
                   ptrs := Some (ArchivePtrs.Build_t
                                   (PyInt (le_combine (slice 128 8 stream)))
                                   (PyInt (le_combine (slice 136 4 stream)))
                                   (PyInt (le_combine (slice 140 8 stream)))
                                   (PyInt (le_combine (slice 148 4 stream))));
                   sha_256 := PyBytes (slice 160 256 stream) |}, skipn 416 stream)
          else
            Raise (MismatchError "Reserved Flags" (reserved_fields stream)
                     (PyInt 0, PyInt 1))
      end.
Proof. apply header_unpack_eq. Qed.

(** X17. On a fresh stream [ArchiveHeaderSerializer.pack] raises
    [AttributeError] when the name is [None], an integer or bytes, or the
    pointers are [None]; [UnicodeEncodeError] when the name is text that
    cannot be encoded (checked before the pointers); [struct.error] when a
    pointer does not fit its slot or the hash is [None], an integer or
    text.  Otherwise it returns 416 and writes exactly 416 bytes: the
    encoded name cut or NUL-padded to 128 bytes, the four pointers, the
    constants 0 and 1, and the hash cut or NUL-padded to 256 bytes. *)
Theorem header_pack_spec (m : MetaBlock) :
  _meta_header_serializer_pack [] m
  = match m.(name) with
    | PyStr s =>
        match Codec.encode s with
        | Raise _ => Raise UnicodeEncodeError
        | Ok b =>
            match m.(ptrs) with
            | None => Raise AttributeError
            | Some p =>
                match m.(sha_256) with
                | PyBytes h =>
                    if ArchivePtrs_fit p
                    then Ok (416, header_bytes b p h)
                    else Raise StructError
                | _ => Raise StructError
                end
            end
        end
    | _ => Raise AttributeError
    end.
Proof. now rewrite header_pack_eq. Qed.

(** X18. Re-encoding a decoded header writes back the 416 bytes that were
    read: whenever [unpack] succeeds, its result is a valid header (the name
    fits 128 bytes and does not end in NUL, the pointers fit, the hash is
    256 bytes), the stream is left after byte 416, and [pack] of the result
    gives the first 416 bytes of the stream. *)
Theorem header_reencode (stream rest : bytes) (m : MetaBlock) :
  _meta_header_serializer_unpack stream = Ok (m, rest) ->
  MetaBlock_valid m = true /\
  rest = skipn 416 stream /\
  _meta_header_serializer_pack [] m = Ok (416, firstn 416 stream).
Proof.
  rewrite header_unpack_eq.
  destruct (Nat.ltb_spec (length stream) 416) as [H|H]; [discriminate|].
  destruct (Codec.decode (slice 0 128 stream)) as [t|] eqn:Ht; [|discriminate].
  destruct (bool_decide_reflect (reserved_fields stream = (PyInt 0, PyInt 1))) as [Hr|];
    [|discriminate].
  intros [= <- <-]. unfold reserved_fields in Hr. injection Hr as Hr0 Hr1.
  destruct (rstrip_split t) as [k Hk].
  pose proof (rstrip_last t) as Hlast.
  set (s := Codec.rstrip [0] t) in *.
  pose proof (encode_decode _ _ Ht) as He.
  rewrite Hk, encode_app, encode_zeros in He.
  destruct (Codec.encode s) as [bs|] eqn:Hbs; [|discriminate].
  cbn [mbind result_bind bind] in He.
  assert (He' : bs ++ repeat Byte.x00 (2 * k) = slice 0 128 stream) by congruence.
  clear He.
  assert (Hlen : (length bs + 2 * k = 128)%nat).
  { rewrite <- (length_slice 0 128 stream) by lia.
    now rewrite <- He', length_app, repeat_length. }
  assert (Hpad : pad 128 bs = slice 0 128 stream).
  { unfold pad. rewrite take_ge by lia.
    replace (128 - length bs)%nat with (2 * k)%nat by lia. exact He'. }
  assert (Hhash : pad 256 (slice 160 256 stream) = slice 160 256 stream).
  { unfold pad. rewrite (length_slice 160 256) by lia.
    rewrite take_ge by (rewrite length_slice; lia). apply app_nil_r. }
  assert (Hfit : ArchivePtrs_fit
                   (ArchivePtrs.Build_t
                      (PyInt (le_combine (slice 128 8 stream)))
                      (PyInt (le_combine (slice 136 4 stream)))
                      (PyInt (le_combine (slice 140 8 stream)))
                      (PyInt (le_combine (slice 148 4 stream)))) = true).
  { unfold ArchivePtrs_fit.
    cbn [ArchivePtrs.header_pos ArchivePtrs.header_size
         ArchivePtrs.data_pos ArchivePtrs.data_size].
    rewrite !(fits_le_combine 8), !(fits_le_combine 4) by (apply length_slice; lia).
    reflexivity. }
  split; [|split; [reflexivity|]].
  - unfold MetaBlock_valid. cbn [name ptrs sha_256]. rewrite Hbs.
    cbn [ArchivePtrs.header_pos ArchivePtrs.header_size
         ArchivePtrs.data_pos ArchivePtrs.data_size].
    rewrite !(fits_le_combine 8), !(fits_le_combine 4) by (apply length_slice; lia).
    rewrite (proj2 (Nat.leb_le (length bs) 128)) by lia.
    destruct (Z.eqb_spec (List.last s 1) 0) as [E|_]; [now destruct Hlast|].
    rewrite (length_slice 160 256) by lia. reflexivity.
  - rewrite header_pack_eq. cbn [name ptrs sha_256]. rewrite Hbs, Hfit.
    unfold header_bytes.
    cbn [ArchivePtrs.header_pos ArchivePtrs.header_size
         ArchivePtrs.data_pos ArchivePtrs.data_size int_of app].
    rewrite Hpad, Hhash, <- Hr0, <- Hr1.
    rewrite !le_split_combine_slice by lia.
    rewrite (slice_app 156 4 256 160) by reflexivity.
    rewrite (slice_app 152 4 260 156) by reflexivity.
    rewrite (slice_app 148 4 264 152) by reflexivity.
    rewrite (slice_app 140 8 268 148) by reflexivity.
    rewrite (slice_app 136 4 276 140) by reflexivity.
    rewrite (slice_app 128 8 280 136) by reflexivity.
    rewrite (slice_app 0 128 288 128) by reflexivity. reflexivity.
Qed.

(** The packed placeholder header, read back with two more bytes behind. *)
Lemma header_reencode_witness :
  let stream := (the (_meta_header_serializer_pack [] MetaBlock_default)).2
                  ++ [Byte.x01; Byte.x02] in
  _meta_header_serializer_unpack stream = Ok (MetaBlock_default, [Byte.x01; Byte.x02]) /\
  MetaBlock_valid MetaBlock_default = true /\
  [Byte.x01; Byte.x02] = skipn 416 stream /\
  _meta_header_serializer_pack [] MetaBlock_default = Ok (416, firstn 416 stream).
Proof.
  cbv zeta. split; [vm_compute; reflexivity|].
  apply (header_reencode _ [Byte.x01; Byte.x02]). vm_compute. reflexivity.
Defined.
